(** * Personal Expense Tracker: the ledger and query engine

    A shallow embedding of [src/expense_tracker.py] (classes [Expense] and
    [ExpenseTracker], the function [authenticate] and the data that
    [ExpenseApp] prepares for its charts) and the properties of its
    operations.

    Conventions of the embedding.
    - Text is modelled for ASCII: a Python text is the [string] of its
      characters when these are ASCII.  Off ASCII, [str.lower] and the digits
      that [strptime] accepts differ from the model; the properties that
      depend on them say so in a hypothesis.
    - Amounts, budget ceilings and exchange rates are Python numbers.  The
      model is generic in them: a class [Number] gives the type and the
      operations the program applies ([+], [*], [>], [==], [sum], truth
      value), with no law assumed, so that what is proved holds of the
      floating point arithmetic of the interpreter, rounding and NaN
      included.  The examples run on exact rationals, with small integers
      as amounts, on which that arithmetic is exact.
    - A Python [dict] is a [gmap]; the ledger is a [list].
    - The interpreter state an operation can touch (the tracker object, the
      files, the dialogs shown, the HTTP requests sent) is threaded through
      a state-and-exception monad [M]; a raised exception keeps the state
      reached when it was raised, as in Python.
    - The clock ([datetime.now()]) and the rate service are inputs of the
      operations that consult them; the readings of the clock inside one
      call are taken to be the same reading.
    - Writing a file always succeeds.

    The file has three parts: the model of the program, the vocabulary in
    which the properties are stated, and the properties. *)

From Stdlib Require Import String Ascii List ZArith QArith Bool Lia.
From stdpp Require Import base option list sorting gmap strings.

Local Open Scope string_scope.
Local Open Scope Z_scope.

(** ** Python strings *)

Module Str.

Definition is_upper (c : ascii) : bool :=
  (65 <=? nat_of_ascii c)%nat && (nat_of_ascii c <=? 90)%nat.

Definition lower_char (c : ascii) : ascii :=
  if is_upper c then ascii_of_nat (nat_of_ascii c + 32) else c.

(** [s.lower()] on ASCII text: the letters A to Z are lowered. *)
Fixpoint lower (s : string) : string :=
  match s with
  | EmptyString => EmptyString
  | String c s' => String (lower_char c) (lower s')
  end.

(** [k in s] on strings: [k] occurs in [s] at some position. *)
Fixpoint contains (k s : string) : bool :=
  String.prefix k s ||
  match s with
  | EmptyString => false
  | String _ s' => contains k s'
  end.

(** Truthiness of a string: [if s:] holds for the non-empty ones. *)
Definition truthy (s : string) : bool :=
  match s with EmptyString => false | String _ _ => true end.

(** Two characters that differ at most in letter case. *)
Definition same_letter (c1 c2 : ascii) : Prop :=
  c1 = c2 \/ (is_upper c1 = true /\ c2 = lower_char c1)
          \/ (is_upper c2 = true /\ c1 = lower_char c2).

(** Two strings that differ only in letter case: same length, and the
    characters at each position differ at most in case. *)
Inductive differ_only_in_case : string -> string -> Prop :=
| doic_nil : differ_only_in_case "" ""
| doic_cons c1 c2 s1 s2 :
    same_letter c1 c2 -> differ_only_in_case s1 s2 ->
    differ_only_in_case (String c1 s1) (String c2 s2).

(** The characters of [s] are ASCII. *)
Fixpoint is_ascii (s : string) : bool :=
  match s with
  | EmptyString => true
  | String c s' => (nat_of_ascii c <? 128)%nat && is_ascii s'
  end.

(** [t] occurs in [s]: the specification of [contains]. *)
Definition occurs_in (t s : string) : Prop :=
  exists pre post, s = pre ++ t ++ post.

End Str.

(** ** Exceptions and outcomes *)

Inductive exn : Type :=
| ValueError
| TypeError
| KeyError
| JSONDecodeError
| RequestException
| OverflowError.

(** The result of running a piece of the program: a value, a raised
    exception, or [Unmodelled] when Python goes on with values that the
    typed records of this model cannot hold (a text where a number belongs,
    and the like).  Python raises nothing there. *)
Inductive outcome (A : Type) : Type :=
| Ok (a : A)
| Raise (e : exn)
| Unmodelled.
Arguments Ok {A} a.
Arguments Raise {A} e.
Arguments Unmodelled {A}.

(** ** Calendar dates ([datetime]) *)

Module Datetime.

(** The date part of a [datetime]; the time of day plays no role in the
    tracker. *)
Record t : Type := mk { year : Z; month : Z; day : Z }.

Definition MINYEAR : Z := 1.
Definition MAXYEAR : Z := 9999.

Definition _is_leap (y : Z) : bool :=
  (y mod 4 =? 0) && (negb (y mod 100 =? 0) || (y mod 400 =? 0)).

Definition _days_in_month (y m : Z) : Z :=
  if m =? 2 then (if _is_leap y then 29 else 28)
  else if (m =? 4) || (m =? 6) || (m =? 9) || (m =? 11) then 30
  else 31.

(** The check every [datetime] constructor performs. *)
Definition valid (d : t) : bool :=
  (MINYEAR <=? year d) && (year d <=? MAXYEAR) &&
  (1 <=? month d) && (month d <=? 12) &&
  (1 <=? day d) && (day d <=? _days_in_month (year d) (month d)).

(** The arguments of [replace] are read as C integers. *)
Definition c_int (z : Z) : bool := (- 2 ^ 31 <=? z) && (z <? 2 ^ 31).

(** [d.replace(year=.., month=.., day=..)]: an argument outside the C
    integers raises [OverflowError]; absent keywords keep the field; the
    result is re-validated. *)
Definition replace (d : t) (y m dd : option Z) : exn + t :=
  if c_int (default 0 y) && c_int (default 0 m) && c_int (default 0 dd) then
    let d' := mk (default (year d) y) (default (month d) m) (default (day d) dd) in
    if valid d' then inr d' else inl ValueError
  else inl OverflowError.

Definition digit (n : Z) : ascii := ascii_of_nat (48 + Z.to_nat n).

Definition zfill2 (n : Z) : string :=
  String (digit (n / 10)) (String (digit (n mod 10)) "").

Definition zfill4 (n : Z) : string :=
  String (digit (n / 1000)) (String (digit (n / 100 mod 10))
    (String (digit (n / 10 mod 10)) (String (digit (n mod 10)) ""))).

(** [d.strftime("%Y-%m-%d")] *)
Definition strftime (d : t) : string :=
  zfill4 (year d) ++ "-" ++ zfill2 (month d) ++ "-" ++ zfill2 (day d).

Definition in_range (lo hi c : ascii) : bool :=
  (nat_of_ascii lo <=? nat_of_ascii c)%nat && (nat_of_ascii c <=? nat_of_ascii hi)%nat.

Definition dval (c : ascii) : Z := Z.of_nat (nat_of_ascii c) - 48.

(** The regular expression [strptime] builds for ["%Y-%m-%d"] is
    [(\d\d\d\d)-(1[0-2]|0[1-9]|[1-9])-(3[0-1]|[1-2]\d|0[1-9]|[1-9]| [1-9])].
    Each piece returns its matches in the order the regex engine tries
    them, with the text left over. *)
Definition re_Y (s : string) : list (Z * string) :=
  match s with
  | String a (String b (String c (String d r))) =>
      if in_range "0" "9" a && in_range "0" "9" b &&
         in_range "0" "9" c && in_range "0" "9" d
      then [(1000 * dval a + 100 * dval b + 10 * dval c + dval d, r)]
      else []
  | _ => []
  end.

Definition re_lit (c : ascii) (s : string) : list string :=
  match s with
  | String c' r => if Ascii.eqb c c' then [r] else []
  | EmptyString => []
  end.

Definition re_two (lo1 hi1 lo2 hi2 : ascii) (s : string) : list (Z * string) :=
  match s with
  | String a (String b r) =>
      if in_range lo1 hi1 a && in_range lo2 hi2 b
      then [(10 * dval a + dval b, r)] else []
  | _ => []
  end.

Definition re_one (s : string) : list (Z * string) :=
  match s with
  | String a r => if in_range "1" "9" a then [(dval a, r)] else []
  | EmptyString => []
  end.

Definition re_space_one (s : string) : list (Z * string) :=
  match s with
  | String a (String b r) =>
      if Ascii.eqb a " " && in_range "1" "9" b then [(dval b, r)] else []
  | _ => []
  end.

Definition re_m (s : string) : list (Z * string) :=
  re_two "1" "1" "0" "2" s ++ re_two "0" "0" "1" "9" s ++ re_one s.

Definition re_d (s : string) : list (Z * string) :=
  re_two "3" "3" "0" "1" s ++ re_two "1" "2" "0" "9" s ++
  re_two "0" "0" "1" "9" s ++ re_one s ++ re_space_one s.

(** The first match of the whole pattern at the start of [s], in the
    engine's backtracking order. *)
Definition format_regex_match (s : string) : option (Z * Z * Z * string) :=
  head ('(y, r1) ← re_Y s; r2 ← re_lit "-" r1;
        '(m, r3) ← re_m r2; r4 ← re_lit "-" r3;
        '(d, r5) ← re_d r4; [(y, m, d, r5)]).

(** [datetime.strptime(s, "%Y-%m-%d")] on ASCII text (the digits of the
    pattern are the ASCII ones): no match, text left over after the match,
    or a date that does not exist raise [ValueError]. *)
Definition strptime (s : string) : exn + t :=
  match format_regex_match s with
  | Some (y, m, d, rest) =>
      if Str.truthy rest then inl ValueError
      else if valid (mk y m d) then inr (mk y m d) else inl ValueError
  | None => inl ValueError
  end.

End Datetime.

(** ** Python numbers *)

(** The numbers of the program ([int] and [float] values) and what it does
    with them: the [0] that [dict.get] defaults to, [+], [*], [>], [==], the
    built-in [sum] of a list, the truth value [bool(x)], and the number a
    boolean counts as (1 or 0).  No law is assumed of them: floating-point
    addition rounds, [sum] may add with a compensation, and a NaN is not
    [==] to itself. *)
Class Number : Type := {
  num : Type;
  num_zero : num;
  num_add : num -> num -> num;
  num_mul : num -> num -> num;
  num_gtb : num -> num -> bool;
  num_eqb : num -> num -> bool;
  num_sum : list num -> num;
  num_truthy : num -> bool;
  num_of_bool : bool -> num
}.
Bind Scope Q_scope with num.

Definition Qgtb (x y : Q) : bool := negb (Qle_bool x y).

(** Exact rationals, on which the examples run: on the small integers of
    the examples the program's arithmetic is exact too. *)
#[export] Instance exact_numbers : Number := {|
  num := Q;
  num_zero := 0%Q;
  num_add := Qplus;
  num_mul := Qmult;
  num_gtb := Qgtb;
  num_eqb := Qeq_bool;
  num_sum := fun l => fold_left Qplus l 0%Q;
  num_truthy := fun q => negb (Qeq_bool q 0);
  num_of_bool := fun b => if b then 1%Q else 0%Q
|}.

(** Rationals with one more value, a NaN ([None]): it propagates through
    [+] and [*], compares false with everything, itself included, and is
    true as a truth value. *)
Definition nan_lift (f : Q -> Q -> Q) (x y : option Q) : option Q :=
  match x, y with Some a, Some b => Some (f a b) | _, _ => None end.

Definition nan_test (f : Q -> Q -> bool) (x y : option Q) : bool :=
  match x, y with Some a, Some b => f a b | _, _ => false end.

Definition numbers_with_nan : Number := {|
  num := option Q;
  num_zero := Some 0%Q;
  num_add := nan_lift Qplus;
  num_mul := nan_lift Qmult;
  num_gtb := nan_test Qgtb;
  num_eqb := nan_test Qeq_bool;
  num_sum := fun l => fold_left (nan_lift Qplus) l (Some 0%Q);
  num_truthy := fun x => match x with Some q => negb (Qeq_bool q 0) | None => true end;
  num_of_bool := fun b => Some (if b then 1%Q else 0%Q)
|}.

Section Model.
Context {N : Number}.

(** ** JSON documents and files *)

#[warning="-register-all"] Inductive json : Type :=
| JNull
| JBool (b : bool)
| JNum (q : num)
| JStr (s : string)
| JArr (l : list json)
| JObj (kv : list (string * json)).

(** What a file holds: text that [json.load] decodes to a value, or text it
    rejects.  [json.dump] followed by [json.load] gives the value back (for
    the values the tracker writes: numbers, strings, arrays, objects). *)
Inductive content : Type :=
| NotJson (text : string)
| JsonDoc (v : json).

(** A decoded JSON object is a [dict]: of several members with one name
    the last one counts. *)
Fixpoint dict_get (k : string) (kv : list (string * json)) : option json :=
  match kv with
  | [] => None
  | (k', v) :: kv' =>
      match dict_get k kv' with
      | Some w => Some w
      | None => if String.eqb k k' then Some v else None
      end
  end.

(** [bool(v)] for decoded JSON values. *)
Definition json_truthy (v : json) : bool :=
  match v with
  | JNull => false
  | JBool b => b
  | JNum q => num_truthy q
  | JStr s => Str.truthy s
  | JArr l => match l with [] => false | _ => true end
  | JObj kv => match kv with [] => false | _ => true end
  end.

(** [for e in v]: arrays give their elements, objects their keys, strings
    their characters; the other values are not iterable. *)
Definition py_iter (v : json) : exn + list json :=
  match v with
  | JArr l => inr l
  | JObj kv => inr (JStr <$> remove_dups (kv.*1))
  | JStr s => inr ((fun c => JStr (String c "")) <$> list_ascii_of_string s)
  | JNull | JBool _ | JNum _ => inl TypeError
  end.

(** [v[k]] for a string [k]. *)
Definition getitem (v : json) (k : string) : exn + json :=
  match v with
  | JObj kv => match dict_get k kv with Some w => inr w | None => inl KeyError end
  | _ => inl TypeError
  end.

(** ** Expense records *)

Record Expense : Type := mkExpense {
  amount : num;
  category : string;
  description : string;
  date : string;
  payment_method : string;
  currency : string
}.

(** [Expense.__init__]: an absent or empty date becomes today's. *)
Definition Expense_init (now : Datetime.t) (amount : num)
    (category description : string) (date : option string)
    (payment_method currency : string) : Expense :=
  {| amount := amount;
     category := category;
     description := description;
     date := match date with
             | Some d => if Str.truthy d then d else Datetime.strftime now
             | None => Datetime.strftime now
             end;
     payment_method := payment_method;
     currency := currency |}.

Definition to_dict (e : Expense) : json :=
  JObj [("amount", JNum (amount e));
        ("category", JStr (category e));
        ("description", JStr (description e));
        ("date", JStr (date e));
        ("payment_method", JStr (payment_method e));
        ("currency", JStr (currency e))].

Definition parameters : list string :=
  ["amount"; "category"; "description"; "date"; "payment_method"; "currency"].

Definition as_num (v : json) : outcome num :=
  match v with JNum q => Ok q | _ => Unmodelled end.

Definition as_str (v : json) : outcome string :=
  match v with JStr s => Ok s | _ => Unmodelled end.

Definition outcome_bind {A B} (o : outcome A) (f : A -> outcome B) : outcome B :=
  match o with
  | Ok a => f a
  | Raise e => Raise e
  | Unmodelled => Unmodelled
  end.

(** [Expense] called with the members of [e] as keyword arguments (line 62):
    the call raises [TypeError] unless [e] is a mapping
    whose keys are parameter names and include the three parameters without
    a default; then [__init__] stores the values as they come. *)
Definition Expense_of_kwargs (now : Datetime.t) (e : json) : outcome Expense :=
  match e with
  | JObj kv =>
      if negb (forallb (fun k => bool_decide (k ∈ parameters)) (kv.*1))
      then Raise TypeError
      else
        match dict_get "amount" kv, dict_get "category" kv,
              dict_get "description" kv with
        | Some a, Some c, Some d =>
            outcome_bind (as_num a) (fun a =>
            outcome_bind (as_str c) (fun c =>
            outcome_bind (as_str d) (fun d =>
            outcome_bind
              (match dict_get "date" kv with
               | Some v => if json_truthy v then as_str v
                           else Ok (Datetime.strftime now)
               | None => Ok (Datetime.strftime now)
               end) (fun dt =>
            outcome_bind
              (match dict_get "payment_method" kv with
               | Some v => as_str v
               | None => Ok "Cash"
               end) (fun pm =>
            outcome_bind
              (match dict_get "currency" kv with
               | Some v => as_str v
               | None => Ok "INR"
               end) (fun cu =>
            Ok (mkExpense a c d dt pm cu)))))))
        | _, _, _ => Raise TypeError
        end
  | _ => Raise TypeError
  end.

(** A list comprehension [[f x for x in l]]: elements are taken in order
    and the first exception ends it.  An unmodelled element does not stop
    Python, so a later exception still shows. *)
Fixpoint comprehension {A B} (f : A -> outcome B) (l : list A) : outcome (list B) :=
  match l with
  | [] => Ok []
  | x :: l' =>
      match f x, comprehension f l' with
      | Raise e, _ => Raise e
      | Ok y, Ok ys => Ok (y :: ys)
      | _, Raise e => Raise e
      | _, _ => Unmodelled
      end
  end.

(** A filtering comprehension [[x for x in l if p x]] whose test may raise. *)
Fixpoint comprehension_if {A} (p : A -> exn + bool) (l : list A) : exn + list A :=
  match l with
  | [] => inr []
  | x :: l' =>
      match p x with
      | inl e => inl e
      | inr b =>
          match comprehension_if p l' with
          | inl e => inl e
          | inr ys => inr (if b then x :: ys else ys)
          end
      end
  end.

(** ** The tracker and the world around it *)

Record ExpenseTracker : Type := mkTracker {
  username : string;
  expenses : list Expense;
  filename : string;
  budgets : gmap string num
}.

Inductive dialog : Type :=
| showwarning (title message : string)
| showerror (title : string) (e : exn).

(** What the rate service answers to a GET. *)
Inductive response : Type :=
| ConnectionFailed
| Body (c : content).

Record State : Type := mkState {
  self : ExpenseTracker;
  files : gmap string content;
  dialogs : list dialog;      (* message boxes shown so far, oldest first *)
  requests : list string      (* URLs requested so far, oldest first *)
}.

Definition M (A : Type) : Type := State -> outcome A * State.

#[global] Instance M_ret : MRet M := fun A a st => (Ok a, st).
#[global] Instance M_bind : MBind M := fun A B f m st =>
  match m st with
  | (Ok a, st') => f a st'
  | (Raise e, st') => (Raise e, st')
  | (Unmodelled, st') => (Unmodelled, st')
  end.

Definition gets {A} (f : State -> A) : M A := fun st => (Ok (f st), st).
Definition modify (f : State -> State) : M unit := fun st => (Ok tt, f st).
Definition lift {A} (r : exn + A) : M A := fun st =>
  (match r with inl e => Raise e | inr a => Ok a end, st).
Definition lift_outcome {A} (o : outcome A) : M A := fun st => (o, st).

(** [try: body except Exception as e: handler e] *)
Definition try_except {A} (body : M A) (handler : exn -> M A) : M A := fun st =>
  match body st with
  | (Raise e, st') => handler e st'
  | r => r
  end.

Definition set_expenses (l : list Expense) : M unit :=
  modify (fun st =>
    mkState (mkTracker (username (self st)) l (filename (self st)) (budgets (self st)))
            (files st) (dialogs st) (requests st)).

Definition set_budgets (b : gmap string num) : M unit :=
  modify (fun st =>
    mkState (mkTracker (username (self st)) (expenses (self st)) (filename (self st)) b)
            (files st) (dialogs st) (requests st)).

(** [json.dump(v, open(name, "w"))] *)
Definition json_dump (name : string) (v : json) : M unit :=
  modify (fun st =>
    mkState (self st) (<[name := JsonDoc v]> (files st)) (dialogs st) (requests st)).

(** [os.path.exists(name)] *)
Definition path_exists (name : string) : M bool :=
  gets (fun st => bool_decide (is_Some (files st !! name))).

(** [json.load(open(name, "r"))], for a file that exists. *)
Definition json_load (name : string) : M json := fun st =>
  match files st !! name with
  | Some (JsonDoc v) => (Ok v, st)
  | Some (NotJson _) => (Raise JSONDecodeError, st)
  | None => (Raise ValueError, st)
  end.

Definition show (d : dialog) : M unit :=
  modify (fun st => mkState (self st) (files st) (dialogs st ++ [d]) (requests st)).

(** [requests.get(url)] against a service [net]. *)
Definition requests_get (net : string -> response) (url : string) : M content := fun st =>
  let st' := mkState (self st) (files st) (dialogs st) (requests st ++ [url]) in
  match net url with
  | ConnectionFailed => (Raise RequestException, st')
  | Body c => (Ok c, st')
  end.

(** [response.json()] *)
Definition response_json (c : content) : M json :=
  match c with
  | JsonDoc v => mret v
  | NotJson _ => lift (inl JSONDecodeError)
  end.

(** ** The operations of [ExpenseTracker] *)

(** [sum(...)] over amounts. *)
Definition py_sum (l : list num) : num := num_sum l.

(** [if year:] for an optional integer argument. *)
Definition given_int (o : option Z) : option Z :=
  match o with
  | Some z => if z =? 0 then None else Some z
  | None => None
  end.

(** [if category:] for an optional text argument. *)
Definition given_str (o : option string) : option string :=
  match o with
  | Some s => if Str.truthy s then Some s else None
  | None => None
  end.

Definition budget_file (user : string) : string := user ++ "_budgets.json".
Definition expenses_file (user : string) : string := user ++ "_expenses.json".

Definition save_expenses : M unit :=
  name ← gets (fun st => filename (self st));
  l ← gets (fun st => expenses (self st));
  json_dump name (JArr (to_dict <$> l)).

Definition load_expenses (now : Datetime.t) : M unit :=
  name ← gets (fun st => filename (self st));
  present ← path_exists name;
  if present : bool then
    data ← json_load name;
    items ← lift (py_iter data);
    l ← lift_outcome (comprehension (Expense_of_kwargs now) items);
    set_expenses l
  else mret tt.

Definition filter_expenses (year month : option Z)
    (category_ payment_method_ : option string) : M (list Expense) :=
  filtered ← gets (fun st => expenses (self st));
  filtered ← match given_int year with
             | Some y => lift (comprehension_if (fun exp =>
                 match Datetime.strptime (date exp) with
                 | inl e => inl e
                 | inr d => inr (Datetime.year d =? y)
                 end) filtered)
             | None => mret filtered
             end;
  filtered ← match given_int month with
             | Some m => lift (comprehension_if (fun exp =>
                 match Datetime.strptime (date exp) with
                 | inl e => inl e
                 | inr d => inr (Datetime.month d =? m)
                 end) filtered)
             | None => mret filtered
             end;
  filtered ← match given_str category_ with
             | Some c => mret (filter (fun exp => category exp = c) filtered)
             | None => mret filtered
             end;
  filtered ← match given_str payment_method_ with
             | Some p => mret (filter (fun exp => payment_method exp = p) filtered)
             | None => mret filtered
             end;
  mret filtered.

(** The body of the loop of [get_summary] (line 68). *)
Definition summary_step (summary : gmap string num) (exp : Expense) : gmap string num :=
  <[category exp := num_add (default num_zero (summary !! category exp)) (amount exp)]> summary.

Definition get_summary (year month : option Z) : M (gmap string num) :=
  filtered_expenses ← filter_expenses year month None None;
  mret (fold_left summary_step filtered_expenses ∅).

Definition search_expenses (keyword : string) : M (list Expense) :=
  l ← gets (fun st => expenses (self st));
  mret (filter (fun exp =>
          Is_true (Str.contains (Str.lower keyword) (Str.lower (description exp)) ||
                   Str.contains (Str.lower keyword) (Str.lower (category exp)))) l).

Definition filter_by_category (category_ : string) : M (list Expense) :=
  l ← gets (fun st => expenses (self st));
  mret (filter (fun exp => Str.lower (category exp) = Str.lower category_) l).

Definition filter_by_date_range (start_date end_date : string) : M (list Expense) :=
  l ← gets (fun st => expenses (self st));
  mret (filter (fun exp =>
          Is_true (String.leb start_date (date exp) && String.leb (date exp) end_date)) l).

(** The test of [delete_expense]: the four fields equal the arguments. *)
Definition matches (date_ category_ : string) (amount_ : num) (description_ : string)
    (exp : Expense) : bool :=
  String.eqb (date exp) date_ && String.eqb (category exp) category_ &&
  num_eqb (amount exp) amount_ && String.eqb (description exp) description_.

Definition delete_expense (date_ category_ : string) (amount_ : num)
    (description_ : string) : M unit :=
  l ← gets (fun st => expenses (self st));
  set_expenses (filter (fun exp =>
      Is_true (negb (matches date_ category_ amount_ description_ exp))) l);;
  save_expenses.

Definition save_budgets : M unit :=
  user ← gets (fun st => username (self st));
  b ← gets (fun st => budgets (self st));
  json_dump (budget_file user) (JObj (prod_map id JNum <$> map_to_list b)).

Definition set_budget (category_ : string) (amount_ : num) : M unit :=
  b ← gets (fun st => budgets (self st));
  set_budgets (<[category_ := amount_]> b);;
  save_budgets.

Definition load_budgets : M unit :=
  user ← gets (fun st => username (self st));
  present ← path_exists (budget_file user);
  if present : bool then
    data ← json_load (budget_file user);
    match data with
    | JObj kv =>
        kv' ← lift_outcome (comprehension (fun '(k, v) =>
                 outcome_bind (as_num v) (fun q => Ok (k, q))) kv);
        set_budgets (list_to_map (reverse kv'))
    | _ => lift_outcome Unmodelled
    end
  else mret tt.

Definition budget_alert (category_ : string) : dialog :=
  showwarning "Budget Alert" ("You have exceeded your budget for " ++ category_ ++ "!").

Definition check_budget (now : Datetime.t) (expense : Expense) : M unit :=
  let category_ := category expense in
  b ← gets (fun st => budgets (self st));
  match b !! category_ with
  | Some ceiling =>
      l ← filter_expenses None (Some (Datetime.month now)) (Some category_) None;
      let spent := py_sum (amount <$> l) in
      if num_gtb spent ceiling then show (budget_alert category_) else mret tt
  | None => mret tt
  end.

Definition add_expense (now : Datetime.t) (expense : Expense) : M unit :=
  l ← gets (fun st => expenses (self st));
  set_expenses (l ++ [expense]);;
  save_expenses;;
  check_budget now expense.

Definition add_recurring_expense (today : Datetime.t) (amount_ : num)
    (category_ description_ : string) (day_of_month : Z) : M unit :=
  target ← (if Datetime.day today <=? day_of_month
            then lift (Datetime.replace today None None (Some day_of_month))
            else
              let next_month := Datetime.month today mod 12 + 1 in
              let next_year := Datetime.year today + (if next_month =? 1 then 1 else 0) in
              lift (Datetime.replace today (Some next_year) (Some next_month)
                      (Some day_of_month)));
  let target_date := Datetime.strftime target in
  let expense := Expense_init today amount_ category_ description_
                   (Some target_date) "Cash" "INR" in
  add_expense today expense.

Definition rate_url (from_currency : string) : string :=
  "https://api.exchangerate-api.com/v4/latest/" ++ from_currency.

(** [amount * rate] for a rate read from the response: a number
    multiplies, a boolean counts as 1 or 0, [None] and a [dict] raise
    [TypeError]; for a text or a list the result depends on whether the
    amount is an [int] or a [float], which the model does not record. *)
Definition times (amount_ : num) (rate : json) : outcome num :=
  match rate with
  | JNum r => Ok (num_mul amount_ r)
  | JBool b => Ok (num_mul amount_ (num_of_bool b))
  | JNull | JObj _ => Raise TypeError
  | JStr _ | JArr _ => Unmodelled
  end.

(** Lines 136-138: the request, the decoding of its body and the lookup
    [data["rates"][to_currency]]. *)
Definition fetch_rate (net : string -> response) (from_currency to_currency : string)
    : M json :=
  response ← requests_get net (rate_url from_currency);
  data ← response_json response;
  rates ← lift (getitem data "rates");
  lift (getitem rates to_currency).

Definition convert_currency (net : string -> response) (amount_ : num)
    (from_currency to_currency : string) : M (option num) :=
  if String.eqb from_currency to_currency then mret (Some amount_)
  else
    try_except
      (rate ← fetch_rate net from_currency to_currency;
       r ← lift_outcome (times amount_ rate);
       mret (Some r))
      (fun e => show (showerror "Currency Conversion Error" e);; mret None).

(** The object [__init__] starts from (lines 42-44 and 46). *)
Definition fresh_tracker (user : string) : ExpenseTracker :=
  mkTracker user [] (expenses_file user) ∅.

Definition with_self (t : ExpenseTracker) (st : State) : State :=
  mkState t (files st) (dialogs st) (requests st).

(** [ExpenseTracker(username)], lines 41-47. *)
Definition ExpenseTracker_init (now : Datetime.t) (user : string) : M unit :=
  modify (with_self (fresh_tracker user));;
  load_expenses now;;
  set_budgets ∅;;
  load_budgets.

(** ** The data behind the charts *)

(** The body of the loop of lines 555-557 of [update_dashboard] (the same
    loop is at lines 448-450 of [show_charts]). *)
Definition by_date_step (expenses_by_date : gmap string num) (exp : Expense)
    : gmap string num :=
  <[date exp := num_add (default num_zero (expenses_by_date !! date exp)) (amount exp)]>
    expenses_by_date.

(** Lines 554-560 of [update_dashboard]: the totals per date, the dates in
    sorted order ([sorted] on texts compares character codes) and the total
    of each date; [None] stands for the [KeyError] of
    [expenses_by_date[date]]. *)
Definition expenses_over_time (expenses : list Expense)
    : option (list string * list num) :=
  let expenses_by_date := fold_left by_date_step expenses ∅ in
  let dates := merge_sort String.le (map_to_list expenses_by_date).*1 in
  amounts ← mapM (fun date_ => expenses_by_date !! date_) dates;
  Some (dates, amounts).

(** ** Authentication *)

Inductive message : Type :=
| showinfo (title text : string)
| showerror_text (title text : string).

Definition users_file : string := "users.json".

(** [d[k] = v] on a [dict] kept as its items in insertion order: a key
    already there keeps its place. *)
Fixpoint dict_set (k : string) (v : json) (d : list (string * json))
    : list (string * json) :=
  match d with
  | [] => [(k, v)]
  | (k', v') :: d' =>
      if String.eqb k k' then (k, v) :: d' else (k', v') :: dict_set k v d'
  end.

(** The [dict] that [json.load] builds from the members of an object. *)
Definition dict_of (kv : list (string * json)) : list (string * json) :=
  fold_left (fun d '(k, v) => dict_set k v d) kv [].

(** An answer of [simpledialog.askstring] is a text, or [None] when the
    dialog is cancelled.  [json.dump] writes the key [None] as "null" and
    the value [None] as null. *)
Definition dumped_key (answer : option string) : string :=
  match answer with Some s => s | None => "null" end.

Definition dumped_value (answer : option string) : json :=
  match answer with Some s => JStr s | None => JNull end.

(** [answer in users] for a [dict] with text keys. *)
Definition key_in (answer : option string) (users : list (string * json)) : bool :=
  match answer with
  | Some u => bool_decide (u ∈ users.*1)
  | None => false
  end.

(** [v == answer] for a loaded value [v]. *)
Definition eq_answer (v : json) (answer : option string) : bool :=
  match v, answer with
  | JStr s, Some p => String.eqb s p
  | JNull, None => true
  | _, _ => false
  end.

(** [authenticate()], lines 616-651, with the three answers of the dialogs
    as arguments.  It returns the pair [(username, password)], the files and
    the message boxes shown.  A users file holding JSON that is not an
    object is [Unmodelled] for the two actions that consult it. *)
Definition authenticate (action username password : option string)
    (fs : gmap string content)
    : outcome (option string * option string) * gmap string content * list message :=
  match fs !! users_file with
  | Some (NotJson _) => (Raise JSONDecodeError, fs, [])
  | loaded =>
      let users : option (list (string * json)) :=
        match loaded with
        | None => Some []
        | Some (JsonDoc (JObj kv)) => Some (dict_of kv)
        | Some _ => None
        end in
      if bool_decide (action = Some "register") then
        match users with
        | Some users =>
            if key_in username users
            then (Ok (None, None), fs, [showerror_text "Error" "User already exists!"])
            else (Ok (username, password),
                  <[users_file :=
                      JsonDoc (JObj (users ++ [(dumped_key username, dumped_value password)]))]> fs,
                  [showinfo "Success" "User registered successfully!"])
        | None => (Unmodelled, fs, [])
        end
      else if bool_decide (action = Some "login") then
        match users with
        | Some users =>
            if key_in username users &&
               eq_answer (default JNull (dict_get (dumped_key username) users)) password
            then (Ok (username, password), fs, [showinfo "Success" "Login successful!"])
            else (Ok (None, None), fs, [showerror_text "Error" "Invalid credentials!"])
        | None => (Unmodelled, fs, [])
        end
      else (Ok (None, None), fs, [])
  end.

End Model.

(** * Vocabulary of the properties *)

Section Vocabulary.
Context {N : Number}.

(** States derived from a state, and sample inputs. *)

Definition with_dialog (d : dialog) (st : State) : State :=
  mkState (self st) (files st) (dialogs st ++ [d]) (requests st).

Definition with_request (url : string) (st : State) : State :=
  mkState (self st) (files st) (dialogs st) (requests st ++ [url]).

Definition with_file (name : string) (c : content) (st : State) : State :=
  mkState (self st) (<[name := c]> (files st)) (dialogs st) (requests st).

(** The state after lines 50-51 of [add_expense]: the record appended and
    the ledger file rewritten. *)
Definition after_append (e : Expense) (st : State) : State :=
  mkState (mkTracker (username (self st)) (expenses (self st) ++ [e])
             (filename (self st)) (budgets (self st)))
          (<[filename (self st) := JsonDoc (JArr (to_dict <$> (expenses (self st) ++ [e])%list))]>
             (files st))
          (dialogs st) (requests st).

Definition idle : State := mkState (fresh_tracker "u") ∅ [] [].

(** [r] is the subsequence of [l] made of the elements that satisfy [P]:
    a subsequence of [l] (same relative order) whose elements satisfy [P]
    and which contains every other such subsequence. *)
Definition subsequence_where {A} (P : A -> Prop) (l r : list A) : Prop :=
  sublist r l /\ Forall P r /\
  forall l', sublist l' l -> Forall P l' -> sublist l' r.

(** An operation is pure when it hands back the state it received, whatever
    it returns or raises. *)
Definition pure_op {A} (m : M A) : Prop := forall st, snd (m st) = st.

(** An operation stays in the typed model when it returns a value or
    raises. *)
Definition modelled {A} (m : M A) : Prop := forall st, fst (m st) <> Unmodelled.



(** The four fields of [e] equal the given values (the amounts by the
    program's [==]). *)
Definition same_tuple (date_ category_ : string) (amount_ : num) (description_ : string)
    (e : Expense) : Prop :=
  date e = date_ /\ category e = category_ /\
  num_eqb (amount e) amount_ = true /\ description e = description_.

(** The year and month tests of [filter_expenses] on a record whose date
    parses. *)
Definition passes (year month : option Z) (e : Expense) : bool :=
  match Datetime.strptime (date e) with
  | inr d =>
      match given_int year with Some y => Datetime.year d =? y | None => true end &&
      match given_int month with Some m => Datetime.month d =? m | None => true end
  | inl _ => false
  end.

(** Following the specification: the test "in the current calendar month",
    the current year and the current month. *)
Definition spec_in_current_month (now : Datetime.t) (e : Expense) : bool :=
  match Datetime.strptime (date e) with
  | inr d => (Datetime.year d =? Datetime.year now) &&
             (Datetime.month d =? Datetime.month now)
  | inl _ => false
  end.


(** Following the specification: the spend of a category in the current
    calendar month. *)
Definition spec_current_month_spend (now : Datetime.t) (c : string)
    (l : list Expense) : num :=
  py_sum (amount <$> filter (fun e => category e = c /\
                                       Is_true (spec_in_current_month now e)) l).

(** Following the specification: the day [day_of_month] of the current
    month and year when it is not before today's day, and otherwise of the
    following month, the year growing by one exactly after December. *)
Definition spec_recurring_target (today : Datetime.t) (day_of_month : Z) : Datetime.t :=
  if day_of_month >=? Datetime.day today
  then Datetime.mk (Datetime.year today) (Datetime.month today) day_of_month
  else if Datetime.month today =? 12
       then Datetime.mk (Datetime.year today + 1) 1 day_of_month
       else Datetime.mk (Datetime.year today) (Datetime.month today + 1) day_of_month.

(** What the lookup of lines 136-138 comes to: the rate the service gives
    for [to_currency], or the exception of the step that failed (the
    request, the decoding of the body, the key "rates", the currency key). *)
Definition lookup_rate (net : string -> response) (from_currency to_currency : string)
    : exn + json :=
  match net (rate_url from_currency) with
  | ConnectionFailed => inl RequestException
  | Body (NotJson _) => inl JSONDecodeError
  | Body (JsonDoc data) =>
      match getitem data "rates" with
      | inl e => inl e
      | inr rates => getitem rates to_currency
      end
  end.

(** An element of the file's array from which no record can be built: it
    is not an object, or it has a member that is no field of a record, or it
    lacks the amount, the category or the description. *)
Definition bad_item (v : json) : Prop :=
  match v with
  | JObj kv =>
      (exists k, k ∈ kv.*1 /\ k ∉ parameters) \/
      dict_get "amount" kv = None \/ dict_get "category" kv = None \/
      dict_get "description" kv = None
  | _ => True
  end.

(** The date of [e] is one that [strptime] reads. *)
Definition parses (e : Expense) : Prop :=
  exists d, Datetime.strptime (date e) = inr d.

(** The four tests of [filter_expenses], each a wildcard when its argument
    is absent, zero or empty. *)
Definition passes_all (year month : option Z) (category_ payment_method_ : option string)
    (e : Expense) : Prop :=
  Is_true (passes year month e) /\
  match given_str category_ with Some c => category e = c | None => True end /\
  match given_str payment_method_ with Some p => payment_method e = p | None => True end.

(** Calendar order: [d1] is the day [d2] or an earlier one. *)
Definition on_or_before (d1 d2 : Datetime.t) : Prop :=
  Datetime.year d1 < Datetime.year d2 \/
  (Datetime.year d1 = Datetime.year d2 /\
   (Datetime.month d1 < Datetime.month d2 \/
    (Datetime.month d1 = Datetime.month d2 /\ Datetime.day d1 <= Datetime.day d2))).

(** The date of [e] is written as [strftime] writes the calendar date [d]. *)
Definition dated (e : Expense) (d : Datetime.t) : Prop :=
  Datetime.valid d = true /\ date e = Datetime.strftime d.

(** What [save_expenses] and [save_budgets] write. *)
Definition dump_ledger (l : list Expense) : content :=
  JsonDoc (JArr (to_dict <$> l)).

Definition dump_budgets (b : gmap string num) : content :=
  JsonDoc (JObj (prod_map id JNum <$> map_to_list b)).

(** The tracker and its two files agree: the tracker is named after its
    user, no record has an empty date, and each file holds the dump of what
    is in memory, or is absent with nothing in memory. *)
Definition synced (st : State) : Prop :=
  filename (self st) = expenses_file (username (self st)) /\
  Forall (fun e => date e <> "") (expenses (self st)) /\
  (files st !! filename (self st) = Some (dump_ledger (expenses (self st))) \/
   (files st !! filename (self st) = None /\ expenses (self st) = [])) /\
  (files st !! budget_file (username (self st)) = Some (dump_budgets (budgets (self st))) \/
   (files st !! budget_file (username (self st)) = None /\ budgets (self st) = ∅)).

(** The users file is absent or holds a JSON object. *)
Definition users_ok (fs : gmap string content) : Prop :=
  match fs !! users_file with
  | None => True
  | Some (JsonDoc (JObj _)) => True
  | Some _ => False
  end.

(** The password the users file holds for a name, if any. *)
Definition stored_password (fs : gmap string content) (u : string) : option json :=
  match fs !! users_file with
  | Some (JsonDoc (JObj kv)) => dict_get u kv
  | _ => None
  end.


End Vocabulary.

(** A sample rate service, in exact rationals. *)
Definition usd_service (url : string) : response :=
  if String.eqb url (rate_url "USD")
  then Body (JsonDoc (JObj [("base", JStr "USD");
                            ("rates", JObj [("INR", JNum 83); ("EUR", JNum (9 # 10))])]))
  else ConnectionFailed.


(** * Properties *)

(** Unfolds the plumbing of [M] so that a program shows its result and
    final state. *)
Ltac run_M :=
  cbv beta iota delta
    [mbind M_bind mret M_ret gets modify lift lift_outcome try_except
     set_expenses set_budgets json_dump path_exists show
     save_expenses save_budgets with_self];
  cbn [self files dialogs requests username expenses filename budgets fst snd].

(** ** Strings *)

(* String.append unfolds on a constructor, as list append does. *)
#[local] Arguments String.append !s1 s2 : simpl nomatch.

Section StringFacts.

Lemma append_assoc (a b c : string) : (a ++ b) ++ c = a ++ b ++ c.
Proof. induction a as [|x a IH]; simpl; [reflexivity | now rewrite IH]. Qed.

Lemma append_empty_r (a : string) : a ++ "" = a.
Proof. induction a as [|x a IH]; simpl; [reflexivity | now rewrite IH]. Qed.

Lemma prefix_spec (k s : string) :
  String.prefix k s = true <-> exists post, s = k ++ post.
Proof.
  revert s; induction k as [|x k IH]; intros s; simpl.
  - split; [intros _; now exists s | now destruct s].
  - destruct s as [|y s]; simpl.
    + split; [discriminate | intros [post H]; discriminate].
    + destruct (ascii_dec x y) as [->|Hne].
      * rewrite IH. split; intros [post H]; exists post; congruence.
      * split; [discriminate | intros [post H]; congruence].
Qed.

Lemma contains_spec (k s : string) :
  Str.contains k s = true <-> Str.occurs_in k s.
Proof.
  unfold Str.occurs_in. induction s as [|y s IH]; cbn [Str.contains].
  - rewrite orb_false_r, prefix_spec. split.
    + intros [post H]. now exists "", post.
    + intros [pre [post H]]. destruct pre; [now exists post | discriminate].
  - rewrite orb_true_iff, prefix_spec, IH. split.
    + intros [[post H] | [pre [post H]]].
      * now exists "", post.
      * exists (String y pre), post. simpl. now rewrite H.
    + intros [pre [post H]]. destruct pre as [|z pre]; simpl in H.
      * left. now exists post.
      * right. exists pre, post. congruence.
Qed.




Lemma is_upper_bounds (c : ascii) :
  Str.is_upper c = true <-> (65 <= nat_of_ascii c <= 90)%nat.
Proof.
  unfold Str.is_upper. rewrite andb_true_iff, !Nat.leb_le. reflexivity.
Qed.

Lemma lower_char_of_upper (c : ascii) :
  Str.is_upper c = true -> nat_of_ascii (Str.lower_char c) = (nat_of_ascii c + 32)%nat.
Proof.
  intros H. unfold Str.lower_char. rewrite H.
  apply is_upper_bounds in H. apply nat_ascii_embedding. lia.
Qed.

Lemma lower_char_not_upper (c : ascii) : Str.is_upper (Str.lower_char c) = false.
Proof.
  destruct (Str.is_upper c) eqn:H.
  - apply not_true_is_false. intros H'. apply is_upper_bounds in H'.
    rewrite lower_char_of_upper in H' by assumption.
    apply is_upper_bounds in H. lia.
  - unfold Str.lower_char. now rewrite H.
Qed.

Lemma lower_char_idem (c : ascii) :
  Str.lower_char (Str.lower_char c) = Str.lower_char c.
Proof.
  unfold Str.lower_char at 1. now rewrite lower_char_not_upper.
Qed.

Lemma same_letter_lower (c1 c2 : ascii) :
  Str.same_letter c1 c2 <-> Str.lower_char c1 = Str.lower_char c2.
Proof.
  split.
  - intros [-> | [[_ ->] | [_ ->]]]; [reflexivity | |]; now rewrite lower_char_idem.
  - intros H. unfold Str.same_letter.
    destruct (Str.is_upper c1) eqn:H1, (Str.is_upper c2) eqn:H2.
    + left. apply (f_equal nat_of_ascii) in H.
      rewrite !lower_char_of_upper in H by assumption.
      rewrite <- (ascii_nat_embedding c1), <- (ascii_nat_embedding c2).
      f_equal. lia.
    + right; left. split; [reflexivity |].
      rewrite H. unfold Str.lower_char. now rewrite H2.
    + right; right. split; [reflexivity |].
      rewrite <- H. unfold Str.lower_char. now rewrite H1.
    + left. unfold Str.lower_char in H. now rewrite H1, H2 in H.
Qed.

Lemma differ_only_in_case_lower (s1 s2 : string) :
  Str.differ_only_in_case s1 s2 <-> Str.lower s1 = Str.lower s2.
Proof.
  split.
  - induction 1 as [|c1 c2 s1 s2 Hc _ IH]; simpl; [reflexivity |].
    apply same_letter_lower in Hc. now rewrite Hc, IH.
  - revert s2; induction s1 as [|c1 s1 IH]; intros [|c2 s2] H; simpl in H;
      try discriminate; [constructor |].
    injection H as Hc Hs. constructor; [now apply same_letter_lower | now apply IH].
Qed.


End StringFacts.

(** ** Subsequences *)

Section Subsequence.
Context {A : Type} (P : A -> Prop) `{!forall x, Decision (P x)}.

Lemma filter_greatest (l l' : list A) :
  sublist l' l -> Forall P l' -> sublist l' (filter P l).
Proof.
  induction 1 as [|x l1 l2 _ IH|x l1 l2 _ IH]; intros HP.
  - constructor.
  - apply Forall_cons in HP as [Hx HP].
    rewrite filter_cons_True by assumption. constructor. now apply IH.
  - destruct (decide (P x)) as [Hx|Hx].
    + rewrite filter_cons_True by assumption. constructor. now apply IH.
    + rewrite filter_cons_False by assumption. now apply IH.
Qed.

Lemma filter_subsequence_where (l : list A) : subsequence_where P l (filter P l).
Proof.
  split; [apply sublist_filter | split].
  - apply Forall_forall. intros x Hx. now apply list_elem_of_filter in Hx.
  - apply filter_greatest.
Qed.

Lemma subsequence_where_unique (l r : list A) :
  subsequence_where P l r -> r = filter P l.
Proof.
  intros (Hsub & HP & Hmax).
  apply (anti_symm sublist).
  - now apply filter_greatest.
  - apply Hmax; apply filter_subsequence_where.
Qed.

Lemma filter_all (l : list A) : Forall P l -> filter P l = l.
Proof.
  induction 1 as [|x l Hx _ IH]; [reflexivity |].
  rewrite filter_cons_True by assumption. now rewrite IH.
Qed.

Lemma filter_idem (l : list A) : filter P (filter P l) = filter P l.
Proof.
  apply filter_all, Forall_forall. intros x Hx.
  now apply list_elem_of_filter in Hx.
Qed.
End Subsequence.

(** ** Dates *)

Section DateFacts.

Example strptime_iso : Datetime.strptime "2024-02-29" = inr (Datetime.mk 2024 2 29).
Proof. reflexivity. Qed.

Example strptime_short : Datetime.strptime "2024-2-9" = inr (Datetime.mk 2024 2 9).
Proof. reflexivity. Qed.

Example strptime_no_such_day : Datetime.strptime "2023-02-29" = inl ValueError.
Proof. reflexivity. Qed.

Example strptime_trailing : Datetime.strptime "2023-02-280" = inl ValueError.
Proof. reflexivity. Qed.

Example strftime_pads : Datetime.strftime (Datetime.mk 2024 3 5) = "2024-03-05".
Proof. reflexivity. Qed.

Lemma digit_is_digit (k : Z) :
  0 <= k <= 9 ->
  Datetime.in_range "0" "9" (Datetime.digit k) = true /\
  Datetime.dval (Datetime.digit k) = k.
Proof.
  intros H.
  assert (k = 0 \/ k = 1 \/ k = 2 \/ k = 3 \/ k = 4 \/
          k = 5 \/ k = 6 \/ k = 7 \/ k = 8 \/ k = 9) as Hk by lia.
  repeat destruct Hk as [-> | Hk]; try subst k; split; reflexivity.
Qed.

Lemma re_Y_zfill4 (y : Z) (r : string) :
  0 <= y <= 9999 -> Datetime.re_Y (Datetime.zfill4 y ++ r) = [(y, r)].
Proof.
  intros H. unfold Datetime.zfill4, Datetime.re_Y. cbn [String.append].
  assert (0 <= y / 1000 <= 9 /\ 0 <= y / 100 mod 10 <= 9 /\
          0 <= y / 10 mod 10 <= 9 /\ 0 <= y mod 10 <= 9 /\
          1000 * (y / 1000) + 100 * (y / 100 mod 10) +
            10 * (y / 10 mod 10) + y mod 10 = y) as (H1 & H2 & H3 & H4 & Hy)
    by (Z.div_mod_to_equations; lia).
  destruct (digit_is_digit _ H1) as [-> ->].
  destruct (digit_is_digit _ H2) as [-> ->].
  destruct (digit_is_digit _ H3) as [-> ->].
  destruct (digit_is_digit _ H4) as [-> ->].
  cbn [andb]. now rewrite Hy.
Qed.

Lemma month_day_match (K m d : Z) :
  1 <= m <= 12 -> 1 <= d <= 31 ->
  head ('(m', r3) ← Datetime.re_m (Datetime.zfill2 m ++ "-" ++ Datetime.zfill2 d);
        r4 ← Datetime.re_lit "-" r3;
        '(d', r5) ← Datetime.re_d r4; [(K, m', d', r5)]) = Some (K, m, d, "").
Proof.
  intros Hm Hd.
  assert (m = 1 \/ m = 2 \/ m = 3 \/ m = 4 \/ m = 5 \/ m = 6 \/
          m = 7 \/ m = 8 \/ m = 9 \/ m = 10 \/ m = 11 \/ m = 12) as Hm' by lia.
  assert (d = 1 \/ d = 2 \/ d = 3 \/ d = 4 \/ d = 5 \/ d = 6 \/ d = 7 \/
          d = 8 \/ d = 9 \/ d = 10 \/ d = 11 \/ d = 12 \/ d = 13 \/ d = 14 \/
          d = 15 \/ d = 16 \/ d = 17 \/ d = 18 \/ d = 19 \/ d = 20 \/ d = 21 \/
          d = 22 \/ d = 23 \/ d = 24 \/ d = 25 \/ d = 26 \/ d = 27 \/ d = 28 \/
          d = 29 \/ d = 30 \/ d = 31) as Hd' by lia.
  clear Hm Hd.
  repeat destruct Hm' as [-> | Hm']; try subst m;
    repeat destruct Hd' as [-> | Hd']; try subst d; reflexivity.
Qed.

Lemma valid_bounds (d : Datetime.t) :
  Datetime.valid d = true ->
  1 <= Datetime.year d <= 9999 /\ 1 <= Datetime.month d <= 12 /\
  1 <= Datetime.day d <= Datetime._days_in_month (Datetime.year d) (Datetime.month d) /\
  Datetime.day d <= 31.
Proof.
  unfold Datetime.valid, Datetime.MINYEAR, Datetime.MAXYEAR.
  rewrite !andb_true_iff, !Z.leb_le. intros H.
  assert (Datetime._days_in_month (Datetime.year d) (Datetime.month d) <= 31).
  { unfold Datetime._days_in_month.
    repeat match goal with |- context [if ?b then _ else _] => destruct b end; lia. }
  lia.
Qed.

(** A date written by [strftime] is read back by [strptime]. *)
Lemma strptime_strftime (d : Datetime.t) :
  Datetime.valid d = true -> Datetime.strptime (Datetime.strftime d) = inr d.
Proof.
  intros Hv. pose proof (valid_bounds d Hv) as (Hy & Hm & Hd1 & Hd).
  unfold Datetime.strptime, Datetime.format_regex_match, Datetime.strftime.
  rewrite re_Y_zfill4 by lia.
  cbn [mbind list_bind]. rewrite app_nil_r.
  change ("-" ++ ?s)%string with (String "-" s).
  cbn [Datetime.re_lit Ascii.eqb Bool.eqb mbind list_bind]. rewrite app_nil_r.
  rewrite month_day_match by lia. cbn [Str.truthy].
  destruct d as [y m dd]; simpl in *. now rewrite Hv.
Qed.

Lemma strftime_truthy (d : Datetime.t) : Str.truthy (Datetime.strftime d) = true.
Proof. reflexivity. Qed.

End DateFacts.

(** ** Operations that only read *)

Section Purity.
Context {N : Number} {A B : Type}.

Lemma pure_ret (a : A) : pure_op (mret a : M A).
Proof. intros st. reflexivity. Qed.

Lemma pure_gets (f : State -> A) : pure_op (gets f).
Proof. intros st. reflexivity. Qed.

Lemma pure_lift (r : exn + A) : pure_op (lift r).
Proof. intros st. reflexivity. Qed.

Lemma pure_bind (m : M A) (f : A -> M B) :
  pure_op m -> (forall a, pure_op (f a)) -> pure_op (m ≫= f).
Proof.
  intros Hm Hf st. unfold mbind, M_bind.
  specialize (Hm st). destruct (m st) as [[a|e|] st']; simpl in Hm; subst st'.
  - apply Hf.
  - reflexivity.
  - reflexivity.
Qed.
End Purity.

Create HintDb pure_ops.
#[local] Hint Resolve pure_ret pure_gets pure_lift : pure_ops.
#[local] Hint Extern 2 (pure_op (_ ≫= _)) => (apply pure_bind; [| intros ?]) : pure_ops.
#[local] Hint Extern 3 (pure_op (match ?x with _ => _ end)) => destruct x : pure_ops.

Section ReadOperations.
Context {N : Number}.

Lemma filter_expenses_pure year month category_ payment_method_ :
  pure_op (filter_expenses year month category_ payment_method_).
Proof. unfold filter_expenses. auto 20 with pure_ops. Qed.

Lemma get_summary_pure year month : pure_op (get_summary year month).
Proof. unfold get_summary. auto using filter_expenses_pure with pure_ops. Qed.

Lemma search_expenses_pure keyword : pure_op (search_expenses keyword).
Proof. unfold search_expenses. auto with pure_ops. Qed.

Lemma filter_by_category_pure category_ : pure_op (filter_by_category category_).
Proof. unfold filter_by_category. auto with pure_ops. Qed.

Lemma filter_by_date_range_pure start_date end_date :
  pure_op (filter_by_date_range start_date end_date).
Proof. unfold filter_by_date_range. auto with pure_ops. Qed.

End ReadOperations.

Section Modelled.
Context {N : Number} {A B : Type}.

Lemma modelled_ret (a : A) : modelled (mret a : M A).
Proof. intros st. discriminate. Qed.

Lemma modelled_gets (f : State -> A) : modelled (gets f).
Proof. intros st. discriminate. Qed.

Lemma modelled_lift (r : exn + A) : modelled (lift r).
Proof. intros st. destruct r; discriminate. Qed.

Lemma modelled_bind (m : M A) (f : A -> M B) :
  modelled m -> (forall a, modelled (f a)) -> modelled (m ≫= f).
Proof.
  intros Hm Hf st. unfold mbind, M_bind.
  specialize (Hm st). destruct (m st) as [[a|e|] st']; simpl in *.
  - apply Hf.
  - discriminate.
  - contradiction.
Qed.
End Modelled.

#[local] Hint Resolve modelled_ret modelled_gets modelled_lift : pure_ops.
#[local] Hint Extern 2 (modelled (_ ≫= _)) => (apply modelled_bind; [| intros ?]) : pure_ops.
#[local] Hint Extern 3 (modelled (match ?x with _ => _ end)) => destruct x : pure_ops.

Section Stages.
Context {N : Number}.


(** When its test never raises, a filtering comprehension is a filter. *)
Lemma comprehension_if_total {A} (p : A -> exn + bool) (q : A -> bool) (l : list A) :
  Forall (fun x => p x = inr (q x)) l ->
  comprehension_if p l = inr (filter (fun x => Is_true (q x)) l).
Proof.
  induction 1 as [|x l Hx _ IH]; simpl; [reflexivity |].
  rewrite Hx, IH. destruct (q x) eqn:Hq.
  - rewrite filter_cons_True by (now rewrite Hq). reflexivity.
  - rewrite filter_cons_False by (now rewrite Hq). reflexivity.
Qed.

Lemma comprehension_if_sublist {A} (p : A -> exn + bool) (l r : list A) :
  comprehension_if p l = inr r -> sublist r l.
Proof.
  revert r; induction l as [|x l IH]; simpl; intros r H.
  - injection H as <-. constructor.
  - destruct (p x) as [e|b]; [discriminate |].
    destruct (comprehension_if p l) as [e|ys]; [discriminate |].
    injection H as <-. destruct b; constructor; now apply IH.
Qed.

End Stages.

(** ** C10: the read operations change nothing *)

Section ReadOnly.
Context {N : Number}.

(** C10. Every read operation, that is [search_expenses],
    [filter_by_category], [filter_by_date_range], [filter_expenses] and
    [get_summary], hands back the state it was given, also when it raises:
    the ledger, the budget map and the files (so nothing was written) are as
    before, and no dialog was shown nor request sent. *)
Theorem read_operations_change_nothing (st : State)
    (keyword category_ start_date end_date : string)
    (year month : option Z) (cat pay : option string) :
  snd (search_expenses keyword st) = st /\
  snd (filter_by_category category_ st) = st /\
  snd (filter_by_date_range start_date end_date st) = st /\
  snd (filter_expenses year month cat pay st) = st /\
  snd (get_summary year month st) = st.
Proof.
  split; [| split; [| split; [| split]]].
  - apply search_expenses_pure.
  - apply filter_by_category_pure.
  - apply filter_by_date_range_pure.
  - apply filter_expenses_pure.
  - apply get_summary_pure.
Qed.

(** The mutating operations do change the state: each rewrites a file. *)
Lemma add_expense_writes now expense st :
  files (snd (add_expense now expense st)) !! filename (self st) =
  Some (JsonDoc (JArr (to_dict <$> (expenses (self st) ++ [expense])%list))).
Proof.
  unfold add_expense, check_budget.
  unfold mbind, M_bind, gets, set_expenses, save_expenses, json_dump, modify; simpl.
  unfold mbind, M_bind; simpl.
  destruct (budgets (self st) !! category expense) as [ceiling|]; simpl.
  - match goal with
    | |- context [filter_expenses ?y ?m ?c ?p ?s] =>
        pose proof (filter_expenses_pure y m c p s) as Hp;
        destruct (filter_expenses y m c p s) as [[l|e|] st']
    end; simpl in Hp; subst st'; simpl.
    + destruct (num_gtb _ _); simpl; apply lookup_insert_eq.
    + apply lookup_insert_eq.
    + apply lookup_insert_eq.
  - apply lookup_insert_eq.
Qed.

End ReadOnly.

(** ** C5: deletion *)

Section Deletion.
Context {N : Number}.

Lemma matches_spec d c a ds e :
  matches d c a ds e = true <-> same_tuple d c a ds e.
Proof.
  unfold matches, same_tuple.
  rewrite !andb_true_iff, !String.eqb_eq. tauto.
Qed.

Lemma not_matches_spec d c a ds e :
  Is_true (negb (matches d c a ds e)) <-> ~ same_tuple d c a ds e.
Proof.
  rewrite <- matches_spec. destruct (matches d c a ds e); simpl; split; auto;
    try (intros H; exfalso; now apply H); discriminate.
Qed.

Lemma subsequence_where_iff {A} (P Q : A -> Prop) (l r : list A) :
  (forall x, P x <-> Q x) -> subsequence_where P l r -> subsequence_where Q l r.
Proof.
  intros HPQ (Hsub & HP & Hmax). split; [assumption | split].
  - eapply Forall_impl; [exact HP | intros x; apply HPQ].
  - intros l' Hl' HQ. apply Hmax; [assumption |].
    eapply Forall_impl; [exact HQ | intros x; apply HPQ].
Qed.

(** C5. [delete_expense] removes exactly the records whose four fields equal
    the given values (the amounts as the program's [==] compares them), all
    of them, and keeps the others in their order; the budgets are untouched
    and the ledger file is rewritten with the result.  When no record
    matches the ledger is unchanged, nothing is raised, and deleting a
    second time gives the same state as deleting once. *)
Theorem delete_expense_spec (st : State) (d c : string) (a : num) (ds : string) :
  exists st',
    delete_expense d c a ds st = (Ok tt, st') /\
    subsequence_where (fun e => ~ same_tuple d c a ds e)
      (expenses (self st)) (expenses (self st')) /\
    budgets (self st') = budgets (self st) /\
    files st' = <[filename (self st) := JsonDoc (JArr (to_dict <$> expenses (self st')))]>
                  (files st) /\
    ((forall e, e ∈ expenses (self st) -> ~ same_tuple d c a ds e) ->
       expenses (self st') = expenses (self st)) /\
    delete_expense d c a ds st' = (Ok tt, st').
Proof.
  destruct st as [[u l f b] fs dl rq].
  eexists. split; [reflexivity |]. simpl.
  split; [| split; [reflexivity | split; [reflexivity | split]]].
  - eapply subsequence_where_iff; [| apply filter_subsequence_where].
    intros e. apply not_matches_spec.
  - intros H. apply filter_all, Forall_forall. intros e He.
    apply not_matches_spec. now apply H.
  - unfold delete_expense. run_M.
    rewrite filter_idem, insert_insert_eq. reflexivity.
Qed.

End Deletion.

(** On exact rationals the tuples compared are equal as numbers. *)
Lemma same_tuple_exact (d c : string) (a : Q) (ds : string) (e : Expense) :
  same_tuple d c a ds e <->
  date e = d /\ category e = c /\ (amount e == a)%Q /\ description e = ds.
Proof. unfold same_tuple. cbn [num_eqb exact_numbers]. now rewrite Qeq_bool_iff. Qed.

(** Two equal records go together; a tuple differing in one field (here
    the letter case of the category) removes nothing. *)
Example delete_example :
  let lunch := mkExpense 12 "Food" "lunch" "2024-05-01" "Cash" "INR" in
  let rent := mkExpense 80 "Rent" "may" "2024-05-02" "Bank" "INR" in
  let st := with_self (mkTracker "u" [lunch; rent; lunch] "u_expenses.json" ∅) idle in
  expenses (self (snd (delete_expense "2024-05-01" "Food" 12 "lunch" st))) = [rent] /\
  expenses (self (snd (delete_expense "2024-05-01" "food" 12 "lunch" st))) =
    [lunch; rent; lunch].
Proof. split; reflexivity. Qed.

(** ** What the generic filter lets through *)

Section FilterDates.
Context {N : Number}.

(** On a ledger whose dates all parse, [filter_expenses year month] returns
    the records of that year and month, in ledger order. *)
Lemma filter_expenses_dates (st : State) (year month : option Z) :
  Forall (fun e => exists d, Datetime.strptime (date e) = inr d) (expenses (self st)) ->
  filter_expenses year month None None st =
    (Ok (filter (fun e => Is_true (passes year month e)) (expenses (self st))), st).
Proof.
  intros Hd. unfold filter_expenses, passes. run_M. cbn [given_str].
  set (l := expenses (self st)) in *.
  assert (forall (f : Datetime.t -> bool) (l' : list Expense),
            Forall (fun e => exists d, Datetime.strptime (date e) = inr d) l' ->
            comprehension_if (fun exp =>
              match Datetime.strptime (date exp) with
              | inl e => inl e
              | inr d => inr (f d)
              end) l' =
            inr (filter (fun e => Is_true
                   match Datetime.strptime (date e) with
                   | inr d => f d
                   | inl _ => false
                   end) l')) as Hstage.
  { intros f l' Hl'. apply comprehension_if_total.
    eapply Forall_impl; [exact Hl' |]. intros e [d ->]. reflexivity. }
  assert (forall (P : Expense -> Prop) `{!forall x, Decision (P x)},
            Forall (fun e => exists d, Datetime.strptime (date e) = inr d) (filter P l))
    as Hsub.
  { intros P ?. apply Forall_forall. intros e He.
    apply list_elem_of_filter in He as [_ He]. rewrite Forall_forall in Hd. now apply Hd. }
  destruct (given_int year) as [y|], (given_int month) as [m|].
  - rewrite Hstage by assumption. rewrite Hstage by apply Hsub.
    f_equal. f_equal. rewrite list_filter_filter. apply list_filter_iff.
    intros e. destruct (Datetime.strptime (date e)); simpl;
      rewrite ?andb_True; tauto.
  - rewrite Hstage by assumption. f_equal. f_equal. apply list_filter_iff.
    intros e. destruct (Datetime.strptime (date e)); simpl;
      rewrite ?andb_true_r; tauto.
  - rewrite Hstage by assumption. reflexivity.
  - f_equal. f_equal. symmetry. apply filter_all, Forall_forall. intros e He.
    rewrite Forall_forall in Hd. destruct (Hd e He) as [d ->]. exact I.
Qed.

End FilterDates.

(** ** C3: the summary *)

Section Summary.
Context {N : Number}.



End Summary.

(** The end-to-end example of the specification: categories A, A, B with
    amounts 10, 20, 5 in one month give A: 30 and B: 5. *)
Example get_summary_example :
  let st := mkState (mkTracker "u"
              [mkExpense 10 "A" "" "2024-05-01" "Cash" "INR";
               mkExpense 20 "A" "" "2024-05-02" "Cash" "INR";
               mkExpense 5 "B" "" "2024-05-03" "Cash" "INR"]
              "u_expenses.json" ∅) ∅ [] [] in
  match fst (get_summary (Some 2024) (Some 5) st) with
  | Ok summary => summary !! "A" = Some 30%Q /\ summary !! "B" = Some 5%Q /\
                  summary !! "C" = None
  | _ => False
  end.
Proof. vm_compute. repeat split. Qed.

(** ** C8: search *)

Section Search.
Context {N : Number}.



End Search.


(** ** C2: matching on the category *)

Section CategoryMatching.
Context {N : Number}.

(** C2, amended. For a category [c] and stored categories in ASCII,
    [filter_by_category c] returns exactly the records whose stored category
    differs from [c] at most in letter case, in ledger order.  The category
    test of [filter_expenses] compares the stored category with the argument
    character for character, whatever the texts: asked for a non-empty
    category alone, it returns exactly the records whose category is equal
    to it. *)
Theorem category_matching (st : State) (c : string) (a : ascii) (c' : string) :
  (Is_true (Str.is_ascii c) ->
   Forall (fun e => Is_true (Str.is_ascii (category e))) (expenses (self st)) ->
   exists r,
     filter_by_category c st = (Ok r, st) /\
     subsequence_where (fun e => Str.differ_only_in_case (category e) c)
       (expenses (self st)) r) /\
  (exists r,
     filter_expenses None None (Some (String a c')) None st = (Ok r, st) /\
     subsequence_where (fun e => category e = String a c') (expenses (self st)) r).
Proof.
  split.
  - intros _ _. eexists. split; [reflexivity |].
    eapply subsequence_where_iff; [| apply filter_subsequence_where].
    intros e. symmetry. apply differ_only_in_case_lower.
  - eexists. split; [reflexivity |]. apply filter_subsequence_where.
Qed.

End CategoryMatching.

Lemma differ_Food_food : Str.differ_only_in_case "Food" "food".
Proof. apply differ_only_in_case_lower. reflexivity. Qed.

(** C2, as stated, fails: the ledger holds one record of category "Food";
    "Food" and "food" differ only in letter case, yet the generic filter
    asked for category "food" returns nothing. *)
Lemma filter_expenses_category_case_sensitive :
  let e := mkExpense 12 "Food" "lunch" "2024-05-01" "Cash" "INR" in
  let st := mkState (mkTracker "u" [e] "u_expenses.json" ∅) ∅ [] [] in
  e ∈ expenses (self st) /\
  Str.differ_only_in_case (category e) "food" /\
  filter_expenses None None (Some "food") None st = (Ok [], st).
Proof.
  split; [left | split; [apply differ_Food_food | reflexivity]].
Qed.

Lemma category_matching_witness :
  let food := mkExpense 12 "Food" "lunch" "2024-05-01" "Cash" "INR" in
  let rent := mkExpense 80 "Rent" "may" "2024-05-02" "Bank" "INR" in
  let FOOD := mkExpense 30 "FOOD" "dinner" "2024-05-03" "UPI" "INR" in
  let st := with_self (mkTracker "u" [food; rent; FOOD] "u_expenses.json" ∅) idle in
  filter_by_category "food" st = (Ok [food; FOOD], st) /\
  subsequence_where (fun e => Str.differ_only_in_case (category e) "food")
    [food; rent; FOOD] [food; FOOD] /\
  filter_expenses None None (Some "food") None st = (Ok [], st).
Proof.
  intros food rent FOOD st.
  destruct (proj1 (category_matching (N := exact_numbers) st "food" "f" "ood"))
    as (r & Hr & Hsub).
  - exact I.
  - repeat constructor.
  - assert (r = [food; FOOD]) as -> by (now injection Hr as <-).
    split; [reflexivity |]. split; [exact Hsub | reflexivity].
Defined.

(** ** C1: the budget rule *)

Section BudgetRule.
Context {N : Number}.


Lemma check_budget_frame now e st :
  self (snd (check_budget now e st)) = self st /\
  files (snd (check_budget now e st)) = files st /\
  requests (snd (check_budget now e st)) = requests st.
Proof.
  unfold check_budget. cbv beta iota delta [mbind M_bind gets]. cbn [fst snd].
  destruct (budgets (self st) !! category e) as [C|]; [| now repeat split].
  match goal with
  | |- context [filter_expenses ?y ?m ?c ?p ?s] =>
      pose proof (filter_expenses_pure y m c p s) as Hp;
      destruct (filter_expenses y m c p s) as [[l|x|] st']
  end; simpl in Hp; subst st'; [| now repeat split ..].
  destruct (num_gtb _ _); now repeat split.
Qed.

Lemma add_expense_run now e st :
  add_expense now e st = check_budget now e (after_append e st).
Proof. reflexivity. Qed.

Lemma add_expense_appends now e st :
  self (snd (add_expense now e st)) = self (after_append e st) /\
  files (snd (add_expense now e st)) = files (after_append e st).
Proof.
  rewrite add_expense_run.
  destruct (check_budget_frame now e (after_append e st)) as (H1 & H2 & _).
  now split.
Qed.

End BudgetRule.

(** On exact rationals the comparison is the strict order: a sum equal to
    the ceiling is not above it. *)
Lemma Qgtb_spec (x y : Q) : Qgtb x y = true <-> (y < x)%Q.
Proof.
  unfold Qgtb. rewrite negb_true_iff, <- not_true_iff_false, Qle_bool_iff.
  split; [apply Qnot_le_lt | apply Qlt_not_le].
Qed.

(** C1 fails on the code.  The clock reads 20 May 2024, the ceiling for
    "Food" is 100, the ledger holds one "Food" record of 80 dated 10 May
    2023, and a "Food" record of 30 dated 20 May 2024 is added.  The spend
    of the current calendar month (May 2024) is 30, not above 100, yet
    [add_expense] shows the budget alert: [check_budget] passes only the
    month number to [filter_expenses], so the record of May 2023 is counted
    too (80 + 30 = 110). *)
Theorem check_budget_counts_other_years :
  let old := mkExpense 80 "Food" "dinner" "2023-05-10" "Cash" "INR" in
  let r := mkExpense 30 "Food" "lunch" "2024-05-20" "Cash" "INR" in
  let now := Datetime.mk 2024 5 20 in
  let st := mkState (mkTracker "u" [old] "u_expenses.json" {["Food" := 100%Q]})
              ∅ [] [] in
  let st' := snd (add_expense now r st) in
  budgets (self st) !! category r = Some 100%Q /\
  expenses (self st') = [old; r] /\
  spec_current_month_spend now "Food" (expenses (self st')) = 30%Q /\
  Qgtb 30 100 = false /\
  dialogs st' = [budget_alert "Food"].
Proof. vm_compute. repeat split. Qed.

(** With the older record in another month the same addition is silent,
    and a spend equal to the ceiling is silent too. *)
Example check_budget_other_month :
  let old := mkExpense 80 "Food" "dinner" "2023-04-10" "Cash" "INR" in
  let r := mkExpense 30 "Food" "lunch" "2024-05-20" "Cash" "INR" in
  let st := mkState (mkTracker "u" [old] "u_expenses.json" {["Food" := 100%Q]})
              ∅ [] [] in
  dialogs (snd (add_expense (Datetime.mk 2024 5 20) r st)) = [].
Proof. vm_compute. reflexivity. Qed.

Example check_budget_equal_is_silent :
  let old := mkExpense 70 "Food" "dinner" "2024-05-10" "Cash" "INR" in
  let r := mkExpense 30 "Food" "lunch" "2024-05-20" "Cash" "INR" in
  let st := mkState (mkTracker "u" [old] "u_expenses.json" {["Food" := 100%Q]})
              ∅ [] [] in
  dialogs (snd (add_expense (Datetime.mk 2024 5 20) r st)) = [].
Proof. vm_compute. reflexivity. Qed.

(** ** C4: recurring expenses *)

Section Recurring.
Context {N : Number}.

Lemma c_int_bounds (z : Z) :
  Datetime.c_int z = true <-> - 2 ^ 31 <= z < 2 ^ 31.
Proof. unfold Datetime.c_int. rewrite andb_true_iff, Z.leb_le, Z.ltb_lt. reflexivity. Qed.

(** The date computed by lines 118-124: the arguments of [replace] are
    those of the target of the specification; only the day can leave the C
    integers, and the date is re-validated. *)
Lemma recurring_target_run (today : Datetime.t) (day_of_month : Z) (st : State) :
  Datetime.valid today = true ->
  (if Datetime.day today <=? day_of_month
   then lift (Datetime.replace today None None (Some day_of_month))
   else lift (Datetime.replace today
                (Some (Datetime.year today +
                       (if Datetime.month today mod 12 + 1 =? 1 then 1 else 0)))
                (Some (Datetime.month today mod 12 + 1)) (Some day_of_month))) st =
  (if Datetime.c_int day_of_month
   then if Datetime.valid (spec_recurring_target today day_of_month)
        then Ok (spec_recurring_target today day_of_month)
        else Raise ValueError
   else Raise OverflowError, st).
Proof.
  intros Htoday. apply valid_bounds in Htoday as (Hy & Hm & _).
  assert (forall z, - 2 ^ 31 <= z < 2 ^ 31 -> Datetime.c_int z = true) as Hc
    by (intros z Hz; now apply c_int_bounds).
  unfold spec_recurring_target, Datetime.replace, lift.
  cbn [default from_option id]. change (Datetime.c_int 0) with true. cbn [andb].
  destruct (Datetime.day today <=? day_of_month) eqn:Hle.
  - assert ((day_of_month >=? Datetime.day today) = true) as -> by lia.
    destruct (Datetime.c_int day_of_month); [| reflexivity].
    now destruct (Datetime.valid _).
  - assert ((day_of_month >=? Datetime.day today) = false) as -> by lia.
    destruct (Datetime.month today =? 12) eqn:H12.
    + apply Z.eqb_eq in H12. rewrite H12.
      change (12 mod 12 + 1) with 1. change (1 =? 1) with true. cbv iota.
      rewrite (Hc (Datetime.year today + 1)) by lia.
      change (Datetime.c_int 1) with true. cbn [andb].
      destruct (Datetime.c_int day_of_month); [| reflexivity].
      now destruct (Datetime.valid _).
    + apply Z.eqb_neq in H12.
      rewrite Z.mod_small by lia.
      assert ((Datetime.month today + 1 =? 1) = false) as -> by lia.
      rewrite Z.add_0_r.
      rewrite (Hc (Datetime.year today)), (Hc (Datetime.month today + 1)) by lia.
      cbn [andb].
      destruct (Datetime.c_int day_of_month); [| reflexivity].
      now destruct (Datetime.valid _).
Qed.

Lemma spec_recurring_target_day (today : Datetime.t) (day_of_month : Z) :
  Datetime.day (spec_recurring_target today day_of_month) = day_of_month.
Proof.
  unfold spec_recurring_target.
  destruct (_ >=? _); [reflexivity |]. now destruct (_ =? _).
Qed.

(** C4. For a clock reading [today] and a [day_of_month] that exists in the
    target month (the target is a date of the calendar),
    [add_recurring_expense] appends one record, with the given amount,
    category and description and the default payment method and currency,
    whose date is the target written as YYYY-MM-DD, which [strptime] reads
    back as the target. *)
Theorem add_recurring_expense_date (st : State) (today : Datetime.t) (amount_ : num)
    (category_ description_ : string) (day_of_month : Z) :
  Datetime.valid today = true ->
  Datetime.valid (spec_recurring_target today day_of_month) = true ->
  let target := spec_recurring_target today day_of_month in
  let st' := snd (add_recurring_expense today amount_ category_ description_
                    day_of_month st) in
  expenses (self st') =
    (expenses (self st) ++
     [mkExpense amount_ category_ description_ (Datetime.strftime target) "Cash" "INR"])%list /\
  Datetime.strptime (Datetime.strftime target) = inr target.
Proof.
  intros Htoday Htarget target st'.
  split; [| now apply strptime_strftime].
  subst st'. unfold add_recurring_expense.
  pose proof (recurring_target_run today day_of_month st Htoday) as Hrun.
  rewrite Htarget in Hrun. fold target in Hrun.
  assert (Datetime.c_int day_of_month = true) as Hc.
  { apply c_int_bounds. apply valid_bounds in Htarget as (_ & _ & Hd1 & Hd).
    rewrite spec_recurring_target_day in Hd1, Hd. lia. }
  rewrite Hc in Hrun.
  cbv beta zeta. unfold mbind at 1, M_bind at 1. rewrite Hrun.
  unfold Expense_init. rewrite strftime_truthy.
  destruct (add_expense_appends today
    (mkExpense amount_ category_ description_ (Datetime.strftime target) "Cash" "INR") st)
    as [H _].
  rewrite H. reflexivity.
Qed.

End Recurring.

(** The example of the specification: on the 10th, day 5 falls in the next
    month (here past December, so in the next year); on the 3rd it falls in
    this month. *)
Lemma add_recurring_expense_date_witness :
  let st := mkState (mkTracker "u" [] "u_expenses.json" ∅) ∅ [] [] in
  expenses (self (snd (add_recurring_expense (Datetime.mk 2024 12 10) 100
                         "Rent" "rent" 5 st))) =
    [mkExpense 100 "Rent" "rent" "2025-01-05" "Cash" "INR"] /\
  expenses (self (snd (add_recurring_expense (Datetime.mk 2024 12 3) 100
                         "Rent" "rent" 5 st))) =
    [mkExpense 100 "Rent" "rent" "2024-12-05" "Cash" "INR"].
Proof.
  intros st. split.
  - apply (add_recurring_expense_date (N := exact_numbers) st (Datetime.mk 2024 12 10) 100 "Rent" "rent" 5);
      reflexivity.
  - apply (add_recurring_expense_date (N := exact_numbers) st (Datetime.mk 2024 12 3) 100 "Rent" "rent" 5);
      reflexivity.
Defined.

(** ** C6: what is saved is what is loaded *)

Section SaveLoad.
Context {N : Number}.

Lemma truthy_nonempty (s : string) : s <> "" -> Str.truthy s = true.
Proof. destruct s; [congruence | reflexivity]. Qed.

(** No record built by the constructor has an empty date, whether it is
    built from arguments or from the members of a loaded object. *)
Lemma Expense_init_date now a c d dt pm cu :
  date (Expense_init now a c d dt pm cu) <> "".
Proof.
  unfold Expense_init. cbn [date].
  destruct dt as [[|x dt]|]; cbn [Str.truthy]; discriminate.
Qed.

Lemma Expense_of_kwargs_date now (v : json) (e : Expense) :
  Expense_of_kwargs now v = Ok e -> date e <> "".
Proof.
  destruct v as [| | | | |kv]; try discriminate.
  unfold Expense_of_kwargs.
  destruct (negb _); [discriminate |].
  destruct (dict_get "amount" kv) as [[]|]; try discriminate;
  destruct (dict_get "category" kv) as [[]|]; try discriminate;
  destruct (dict_get "description" kv) as [[]|]; try discriminate.
  cbn [as_num as_str outcome_bind].
  assert (forall o : outcome string,
            (forall s, o = Ok s -> s <> "") ->
            outcome_bind o (fun dt =>
              outcome_bind
                (match dict_get "payment_method" kv with
                 | Some v => as_str v
                 | None => Ok "Cash"
                 end) (fun pm =>
              outcome_bind
                (match dict_get "currency" kv with
                 | Some v => as_str v
                 | None => Ok "INR"
                 end) (fun cu => Ok (mkExpense q s s0 dt pm cu)))) = Ok e ->
            date e <> "") as Hdate.
  { intros [dt| |] Hdt; try discriminate. cbn [outcome_bind].
    destruct (match dict_get "payment_method" kv with
              | Some v => as_str v | None => Ok "Cash" end); try discriminate.
    destruct (match dict_get "currency" kv with
              | Some v => as_str v | None => Ok "INR" end); try discriminate.
    cbn [outcome_bind]. intros [= <-]. cbn [date]. now apply Hdt. }
  apply Hdate.
  destruct (dict_get "date" kv) as [dt|]; [destruct (json_truthy dt) eqn:Ht |];
    try (intros s' [= <-]; discriminate).
  destruct dt; cbn [as_str]; try discriminate.
  intros s' [= <-]. cbn [json_truthy] in Ht. now destruct s1.
Qed.

(** A record written by [to_dict] is rebuilt by the constructor, provided
    its date is not empty (the constructor replaces an empty date by
    today's, so no record it built has one). *)
Lemma Expense_of_kwargs_to_dict now (e : Expense) :
  date e <> "" -> Expense_of_kwargs now (to_dict e) = Ok e.
Proof.
  intros Hd. destruct e as [a c d dt pm cu]. simpl in Hd.
  unfold Expense_of_kwargs, to_dict.
  cbn -[Datetime.strftime]. now rewrite (truthy_nonempty dt Hd).
Qed.

Lemma comprehension_to_dict now (l : list Expense) :
  Forall (fun e => date e <> "") l ->
  comprehension (Expense_of_kwargs now) (to_dict <$> l) = Ok l.
Proof.
  induction 1 as [|e l He _ IH]; [reflexivity |].
  cbn [fmap list_fmap comprehension].
  change (list_fmap _ _ to_dict l) with (to_dict <$> l).
  now rewrite Expense_of_kwargs_to_dict, IH.
Qed.

(** Loading a tracker object [t] from a state whose ledger file holds the
    dump of [l] gives the ledger [l]. *)
Lemma load_expenses_of_dump now (t : ExpenseTracker) (st : State) (l : list Expense) :
  Forall (fun e => date e <> "") l ->
  files st !! filename t = Some (JsonDoc (JArr (to_dict <$> l))) ->
  load_expenses now (with_self t st) =
    (Ok tt, with_self (mkTracker (username t) l (filename t) (budgets t)) st).
Proof.
  intros Hl Hf. unfold load_expenses, json_load, py_iter. run_M.
  rewrite Hf. rewrite bool_decide_eq_true_2 by eauto.
  run_M. rewrite Hf. cbv beta iota.
  rewrite comprehension_to_dict by assumption. reflexivity.
Qed.

(** C6. After [add_expense now r] the ledger in memory is the old one
    followed by [r], and loading a tracker object for the same file (a fresh
    one for the same user, for instance) from the files as they are then
    gives that very sequence.  Records carry a non-empty date, as every
    record built by the constructor does. *)
Theorem add_then_reload (st : State) (now now' : Datetime.t) (r : Expense)
    (t : ExpenseTracker) :
  filename t = filename (self st) ->
  Forall (fun e => date e <> "") (expenses (self st) ++ [r]) ->
  let st1 := snd (add_expense now r st) in
  expenses (self st1) = (expenses (self st) ++ [r])%list /\
  exists st2,
    load_expenses now' (with_self t st1) = (Ok tt, st2) /\
    expenses (self st2) = expenses (self st1).
Proof.
  intros Hname Hdates st1.
  destruct (add_expense_appends now r st) as [Hself Hfiles]. fold st1 in Hself, Hfiles.
  assert (expenses (self st1) = (expenses (self st) ++ [r])%list) as Hexp
    by (now rewrite Hself).
  split; [assumption |].
  eexists. split.
  - apply load_expenses_of_dump with (l := expenses (self st1)).
    + now rewrite Hexp.
    + rewrite Hfiles, Hname, Hexp. apply lookup_insert_eq.
  - reflexivity.
Qed.

(** The same holds after a deletion. *)
Lemma delete_then_reload (st : State) (now' : Datetime.t) (d c : string) (a : num)
    (ds : string) (t : ExpenseTracker) :
  filename t = filename (self st) ->
  Forall (fun e => date e <> "") (expenses (self st)) ->
  let st1 := snd (delete_expense d c a ds st) in
  exists st2,
    load_expenses now' (with_self t st1) = (Ok tt, st2) /\
    expenses (self st2) = expenses (self st1).
Proof.
  intros Hname Hdates st1.
  assert (expenses (self st1) =
          filter (fun e => Is_true (negb (matches d c a ds e))) (expenses (self st)))
    as Hexp by reflexivity.
  assert (files st1 =
          <[filename (self st) := JsonDoc (JArr (to_dict <$> expenses (self st1)))]>
            (files st)) as Hfiles by reflexivity.
  eexists. split.
  - apply (load_expenses_of_dump now' t st1 (expenses (self st1))).
    + apply Forall_forall. intros e He. rewrite Forall_forall in Hdates.
      apply Hdates. rewrite Hexp in He. now apply list_elem_of_filter in He.
    + rewrite Hfiles, Hname. apply lookup_insert_eq.
  - reflexivity.
Qed.

End SaveLoad.

Lemma add_then_reload_witness :
  let r := mkExpense 12 "Food" "lunch" "2024-05-01" "UPI" "INR" in
  let st := mkState (mkTracker "u" [mkExpense 80 "Rent" "may" "2024-05-02" "Bank" "INR"]
                       "u_expenses.json" ∅) ∅ [] [] in
  let st1 := snd (add_expense (Datetime.mk 2024 5 20) r st) in
  expenses (self st1) = (expenses (self st) ++ [r])%list /\
  exists st2,
    load_expenses (Datetime.mk 2024 6 1) (with_self (fresh_tracker "u") st1) = (Ok tt, st2) /\
    expenses (self st2) = expenses (self st1).
Proof.
  intros r st.
  apply (add_then_reload (N := exact_numbers) st (Datetime.mk 2024 5 20) (Datetime.mk 2024 6 1) r
           (fresh_tracker "u")).
  - reflexivity.
  - repeat constructor; discriminate.
Defined.

(** ** C7: currency conversion *)

Section Conversion.
Context {N : Number}.

Lemma fetch_rate_run net from_currency to_currency st :
  fetch_rate net from_currency to_currency st =
  (match lookup_rate net from_currency to_currency with
   | inl e => Raise e
   | inr v => Ok v
   end, with_request (rate_url from_currency) st).
Proof.
  unfold fetch_rate, lookup_rate, requests_get, response_json. run_M.
  destruct (net (rate_url from_currency)) as [|[text|data]]; try reflexivity.
  run_M. destruct (getitem data "rates") as [e|rates]; [reflexivity |].
  destruct (getitem rates to_currency); reflexivity.
Qed.


End Conversion.

Example convert_same_currency :
  convert_currency usd_service 100 "USD" "USD" idle = (Ok (Some 100%Q), idle).
Proof. reflexivity. Qed.

Example convert_usd_inr :
  fst (convert_currency usd_service 100 "USD" "INR" idle) = Ok (Some (100 * 83)%Q) /\
  requests (snd (convert_currency usd_service 100 "USD" "INR" idle)) = [rate_url "USD"].
Proof. split; reflexivity. Qed.

Example convert_unknown_currency :
  convert_currency usd_service 100 "USD" "XXX" idle =
    (Ok None, with_dialog (showerror "Currency Conversion Error" KeyError)
                (with_request (rate_url "USD") idle)).
Proof. reflexivity. Qed.

Example convert_network_down :
  convert_currency usd_service 100 "GBP" "INR" idle =
    (Ok None, with_dialog (showerror "Currency Conversion Error" RequestException)
                (with_request (rate_url "GBP") idle)).
Proof. reflexivity. Qed.


(** ** C9: loading *)

Section Loading.
Context {N : Number}.

Lemma bad_item_raises now (v : json) :
  bad_item v -> Expense_of_kwargs now v = Raise TypeError.
Proof.
  destruct v as [| | | | |kv]; try reflexivity.
  unfold bad_item, Expense_of_kwargs. intros H.
  destruct (forallb _ _) eqn:Hkeys; [| reflexivity]. cbn [negb].
  destruct H as [(k & Hk & Hnot) | H].
  - exfalso. rewrite forallb_forall in Hkeys.
    apply list_elem_of_In, Hkeys, bool_decide_eq_true in Hk. contradiction.
  - destruct H as [-> | [H | H]]; [reflexivity | |].
    + rewrite H. now destruct (dict_get "amount" kv).
    + rewrite H. now destruct (dict_get "amount" kv), (dict_get "category" kv).
Qed.

Lemma Expense_of_kwargs_raises now (v : json) (e : exn) :
  Expense_of_kwargs now v = Raise e -> e = TypeError.
Proof.
  destruct v as [| | | | |kv]; try (cbn; congruence).
  unfold Expense_of_kwargs.
  destruct (negb _); [congruence |].
  destruct (dict_get "amount" kv) as [a|]; [| congruence].
  destruct (dict_get "category" kv) as [c|]; [| congruence].
  destruct (dict_get "description" kv) as [d|]; [| congruence].
  destruct a, c, d; try (cbn; congruence).
  destruct (dict_get "date" kv) as [dt|];
    [destruct (json_truthy dt); [destruct dt |] |]; try (cbn; congruence);
    (destruct (dict_get "payment_method" kv) as [[]|]; try (cbn; congruence);
     destruct (dict_get "currency" kv) as [[]|]; cbn; congruence).
Qed.

Lemma comprehension_bad_item now (items : list json) :
  Exists bad_item items ->
  comprehension (Expense_of_kwargs now) items = Raise TypeError.
Proof.
  induction 1 as [v items Hv | v items _ IH]; cbn [comprehension].
  - now rewrite (bad_item_raises now v Hv).
  - rewrite IH. destruct (Expense_of_kwargs now v) as [x|e|] eqn:Hx; try reflexivity.
    now rewrite (Expense_of_kwargs_raises now v e Hx).
Qed.

(** C9, amended. Constructing the tracker of a user ([ExpenseTracker_init],
    whose first steps are a fresh object and [load_expenses]): when the
    user's ledger file is absent the load returns normally and the ledger is
    empty.  When the file exists and its text is not JSON, or its value is
    not iterable (null, a boolean, a number), or it is an array with an
    element from which no record can be built, the exception of the load
    leaves the constructor: no tracker with an empty or partial ledger comes
    out.  When the file holds a value that iterates to nothing (the empty
    array, but also the empty object and the empty text, which are not the
    array of the file format) the load returns normally with the empty
    ledger. *)
Theorem load_absent_or_malformed (now : Datetime.t) (user : string) (st : State) :
  let st0 := with_self (fresh_tracker user) st in
  (files st !! expenses_file user = None ->
     load_expenses now st0 = (Ok tt, st0) /\ expenses (self st0) = []) /\
  (forall text, files st !! expenses_file user = Some (NotJson text) ->
     load_expenses now st0 = (Raise JSONDecodeError, st0) /\
     ExpenseTracker_init now user st = (Raise JSONDecodeError, st0)) /\
  (forall v e, files st !! expenses_file user = Some (JsonDoc v) ->
     py_iter v = inl e ->
     load_expenses now st0 = (Raise e, st0) /\
     ExpenseTracker_init now user st = (Raise e, st0)) /\
  (forall items, files st !! expenses_file user = Some (JsonDoc (JArr items)) ->
     Exists bad_item items ->
     load_expenses now st0 = (Raise TypeError, st0) /\
     ExpenseTracker_init now user st = (Raise TypeError, st0)) /\
  (forall v, files st !! expenses_file user = Some (JsonDoc v) ->
     py_iter v = inr [] ->
     load_expenses now st0 = (Ok tt, st0) /\ expenses (self st0) = []).
Proof.
  intros st0.
  assert (forall o, load_expenses now st0 = (Raise o, st0) ->
            ExpenseTracker_init now user st = (Raise o, st0)) as Hinit.
  { intros o H. unfold ExpenseTracker_init, mbind at 1, M_bind at 1.
    unfold modify. fold st0. unfold mbind at 1, M_bind at 1. now rewrite H. }
  assert (forall c, files st !! expenses_file user = Some c ->
            load_expenses now st0 =
            (data ← json_load (expenses_file user);
             items ← lift (py_iter data);
             l ← lift_outcome (comprehension (Expense_of_kwargs now) items);
             set_expenses l) st0) as Hpresent.
  { intros c Hc. unfold load_expenses, path_exists.
    cbv beta iota delta [mbind M_bind gets]. cbn [fst snd].
    change (files st0) with (files st).
    change (filename (self st0)) with (expenses_file user).
    rewrite Hc, bool_decide_eq_true_2 by eauto. reflexivity. }
  split; [| split; [| split; [| split]]].
  - intros Hf. split; [| reflexivity].
    unfold load_expenses, path_exists.
    cbv beta iota delta [mbind M_bind gets]. cbn [fst snd].
    change (files st0) with (files st).
    change (filename (self st0)) with (expenses_file user).
    rewrite Hf, bool_decide_eq_false_2; [reflexivity |].
    intros [? ?]; discriminate.
  - intros text Hf.
    assert (load_expenses now st0 = (Raise JSONDecodeError, st0)) as H.
    { rewrite (Hpresent _ Hf). unfold json_load, mbind, M_bind.
      change (files st0) with (files st). now rewrite Hf. }
    split; [assumption | now apply Hinit].
  - intros v e Hf Hv.
    assert (load_expenses now st0 = (Raise e, st0)) as H.
    { rewrite (Hpresent _ Hf). unfold json_load, mbind, M_bind.
      change (files st0) with (files st). rewrite Hf, Hv. reflexivity. }
    split; [assumption | now apply Hinit].
  - intros items Hf Hbad.
    assert (load_expenses now st0 = (Raise TypeError, st0)) as H.
    { rewrite (Hpresent _ Hf). unfold json_load, mbind, M_bind.
      change (files st0) with (files st). rewrite Hf. cbn [py_iter lift].
      unfold lift_outcome. now rewrite (comprehension_bad_item now items Hbad). }
    split; [assumption | now apply Hinit].
  - intros v Hf Hv. split; [| reflexivity].
    rewrite (Hpresent _ Hf). unfold json_load, mbind, M_bind.
    change (files st0) with (files st). rewrite Hf, Hv. reflexivity.
Qed.

End Loading.

Example load_absent :
  ExpenseTracker_init (Datetime.mk 2024 5 20) "u" idle = (Ok tt, idle).
Proof. reflexivity. Qed.

Example load_garbage :
  fst (ExpenseTracker_init (Datetime.mk 2024 5 20) "u"
         (with_file "u_expenses.json" (NotJson "[{amount: 1") idle))
  = Raise JSONDecodeError.
Proof. vm_compute. reflexivity. Qed.

Example load_missing_field :
  fst (ExpenseTracker_init (Datetime.mk 2024 5 20) "u"
         (with_file "u_expenses.json"
            (JsonDoc (JArr [to_dict (mkExpense 1 "A" "a" "2024-05-01" "Cash" "INR");
                            JObj [("amount", JNum 2); ("category", JStr "B")]])) idle))
  = Raise TypeError.
Proof. vm_compute. reflexivity. Qed.

(** Optional fields take their defaults on loading. *)
Example load_defaults :
  expenses (self (snd (ExpenseTracker_init (Datetime.mk 2024 5 20) "u"
     (with_file "u_expenses.json"
        (JsonDoc (JArr [JObj [("amount", JNum 2); ("category", JStr "B");
                              ("description", JStr "b")]])) idle))))
  = [mkExpense 2 "B" "b" "2024-05-20" "Cash" "INR"].
Proof. vm_compute. reflexivity. Qed.

(** A non-empty object iterates to its keys, which are no mappings, and
    the load raises. *)
Example load_budget_object :
  fst (ExpenseTracker_init (Datetime.mk 2024 5 20) "u"
         (with_file "u_expenses.json" (JsonDoc (JObj [("Food", JNum 100)])) idle))
  = Raise TypeError.
Proof. vm_compute. reflexivity. Qed.

(** C9, as stated, fails: the ledger file of the user exists and holds an
    empty JSON object, or an empty JSON text, instead of the array of
    records of the file format.  Both are valid JSON that iterates to
    nothing, so the comprehension of line 62 yields the empty ledger: the
    constructor returns normally, no error is raised, and the tracker starts
    from an empty ledger. *)
Lemma load_expenses_malformed_is_silent :
  let now := Datetime.mk 2024 5 20 in
  let st1 := with_file "u_expenses.json" (JsonDoc (JObj [])) idle in
  let st2 := with_file "u_expenses.json" (JsonDoc (JStr "")) idle in
  files st1 !! expenses_file "u" = Some (JsonDoc (JObj [])) /\
  fst (ExpenseTracker_init now "u" st1) = Ok tt /\
  expenses (self (snd (ExpenseTracker_init now "u" st1))) = [] /\
  files st2 !! expenses_file "u" = Some (JsonDoc (JStr "")) /\
  fst (ExpenseTracker_init now "u" st2) = Ok tt /\
  expenses (self (snd (ExpenseTracker_init now "u" st2))) = [].
Proof. vm_compute. repeat split. Qed.

(** * Further properties of the operations *)

(** ** The generic filter *)

Section GenericFilter.
Context {N : Number}.

Lemma strptime_error (s : string) (e : exn) :
  Datetime.strptime s = inl e -> e = ValueError.
Proof.
  unfold Datetime.strptime.
  destruct (Datetime.format_regex_match s) as [[[[y m] d] rest]|]; [| congruence].
  destruct (Str.truthy rest); [congruence |].
  destruct (Datetime.valid _); congruence.
Qed.

Lemma comprehension_if_raises {A} (p : A -> exn + bool) (l : list A) (e : exn) :
  comprehension_if p l = inl e -> exists x, x ∈ l /\ p x = inl e.
Proof.
  induction l as [|x l IH]; simpl; [discriminate |].
  destruct (p x) as [e'|b] eqn:Hx.
  - intros [= <-]. exists x. split; [left | assumption].
  - destruct (comprehension_if p l) as [e'|ys]; [| now destruct b].
    intros [= <-]. destruct IH as (y & Hy & Hpy); [reflexivity |].
    exists y. split; [now right | assumption].
Qed.

Lemma comprehension_if_bad {A} (p : A -> exn + bool) (l : list A) (x : A) (e : exn) :
  x ∈ l -> p x = inl e -> exists e', comprehension_if p l = inl e'.
Proof.
  intros Hin Hx. induction Hin as [x l | x y l _ IH]; simpl.
  - rewrite Hx. eauto.
  - destruct (p y); [eauto |]. destruct (IH Hx) as [e' ->]. eauto.
Qed.

(** The last two tests of [filter_expenses] are filters of what the first
    two let through. *)
Lemma filter_expenses_split year month category_ payment_method_ st :
  filter_expenses year month category_ payment_method_ st =
  match filter_expenses year month None None st with
  | (Ok l, st') =>
      (Ok (match given_str payment_method_ with
           | Some p => filter (fun exp => payment_method exp = p)
           | None => id
           end
             (match given_str category_ with
              | Some c => filter (fun exp => category exp = c)
              | None => id
              end l)), st')
  | r => r
  end.
Proof.
  unfold filter_expenses. run_M. cbn [given_str].
  destruct (given_int year) as [y|];
    [destruct (comprehension_if _ _) as [e|l1]; [reflexivity |] |];
    (destruct (given_int month) as [m|];
     [destruct (comprehension_if _ _) as [e|l2]; [reflexivity |] |]);
    destruct (given_str category_), (given_str payment_method_); reflexivity.
Qed.

(** X1. On a ledger whose dates all parse, [filter_expenses] returns
    exactly the records that pass every test that was asked for (year,
    month, category, payment method), in ledger order. *)
Theorem filter_expenses_conjunctive (st : State) (year month : option Z)
    (category_ payment_method_ : option string) :
  Forall parses (expenses (self st)) ->
  exists r,
    filter_expenses year month category_ payment_method_ st = (Ok r, st) /\
    subsequence_where (passes_all year month category_ payment_method_)
      (expenses (self st)) r.
Proof.
  intros Hd. rewrite filter_expenses_split, (filter_expenses_dates st year month Hd).
  eexists. split; [reflexivity |].
  unfold passes_all.
  destruct (given_str category_) as [c|], (given_str payment_method_) as [p|];
    unfold id; rewrite ?list_filter_filter;
    (eapply subsequence_where_iff; [| apply filter_subsequence_where]);
    intros e; cbv beta; tauto.
Qed.

Lemma filter_expenses_undated (st : State) (year month : option Z) :
  given_int year = None -> given_int month = None ->
  filter_expenses year month None None st = (Ok (expenses (self st)), st).
Proof.
  intros Hy Hm. unfold filter_expenses. run_M. now rewrite Hy, Hm.
Qed.

Lemma filter_expenses_raises (st : State) (year month : option Z) :
  given_int year <> None \/ given_int month <> None ->
  Exists (fun e => ~ parses e) (expenses (self st)) ->
  exists st', filter_expenses year month None None st = (Raise ValueError, st').
Proof.
  intros Hgiven Hbad. apply Exists_exists in Hbad as (x & Hin & Hx).
  assert (exists e, Datetime.strptime (date x) = inl e) as [e He].
  { destruct (Datetime.strptime (date x)) as [e|d] eqn:H; [eauto |].
    exfalso. apply Hx. now exists d. }
  pose proof (strptime_error _ _ He) as ->.
  assert (forall f : Datetime.t -> bool,
            comprehension_if (fun exp =>
              match Datetime.strptime (date exp) with
              | inl e => inl e
              | inr d => inr (f d)
              end) (expenses (self st)) = inl ValueError) as Hstage.
  { intros f.
    set (p := fun exp : Expense =>
                match Datetime.strptime (date exp) with
                | inl e => inl e
                | inr d => inr (f d)
                end).
    destruct (comprehension_if_bad p _ x ValueError Hin) as [e' He'];
      [unfold p; now rewrite He |].
    rewrite He'. f_equal. subst p.
    apply comprehension_if_raises in He' as (y & _ & Hy).
    destruct (Datetime.strptime (date y)) as [e|d] eqn:H; [| discriminate].
    injection Hy as <-. now apply strptime_error in H. }
  unfold filter_expenses. run_M.
  destruct (given_int year) as [y|].
  - rewrite Hstage. eauto.
  - destruct (given_int month) as [m|]; [| now destruct Hgiven].
    rewrite Hstage. eauto.
Qed.

(** X2. On a ledger whose stored dates are ASCII texts, [filter_expenses]
    raises exactly when a year or a month is asked for (a zero counts as not
    asked) and some record of the ledger, whatever its category, has a date
    that [strptime] rejects; the exception is then [ValueError].  In every
    other case it returns a list. *)
Theorem filter_expenses_failure (st : State) (year month : option Z)
    (category_ payment_method_ : option string) :
  Forall (fun e => Is_true (Str.is_ascii (date e))) (expenses (self st)) ->
  let asked := given_int year <> None \/ given_int month <> None in
  let bad := Exists (fun e => ~ parses e) (expenses (self st)) in
  (asked /\ bad ->
     filter_expenses year month category_ payment_method_ st = (Raise ValueError, st)) /\
  (~ (asked /\ bad) ->
     exists r, filter_expenses year month category_ payment_method_ st = (Ok r, st)).
Proof.
  intros _ asked bad. split.
  - intros [Ha Hb]. rewrite filter_expenses_split.
    destruct (filter_expenses_raises st year month Ha Hb) as [st' H].
    pose proof (filter_expenses_pure year month None None st) as Hp.
    rewrite H in *. simpl in Hp. now subst st'.
  - intros Hno. rewrite filter_expenses_split.
    destruct (decide (given_int year = None /\ given_int month = None)) as [[Hy Hm]|Hd].
    + rewrite (filter_expenses_undated st year month Hy Hm). eauto.
    + assert (asked) as Ha.
      { unfold asked. destruct (given_int year); [left; discriminate |].
        right. intros Hm. now apply Hd. }
      assert (Forall parses (expenses (self st))) as Hall.
      { apply Forall_forall. intros e He.
        destruct (Datetime.strptime (date e)) as [x|d] eqn:Hs; [| now exists d].
        exfalso. apply Hno. split; [assumption |].
        apply Exists_exists. exists e. split; [assumption |].
        intros [d Hd']. congruence. }
      rewrite (filter_expenses_dates st year month Hall). eauto.
Qed.

End GenericFilter.

Lemma filter_expenses_conjunctive_witness :
  exists r,
    filter_expenses (Some 2024) (Some 5) (Some "Food") (Some "Cash")
      (with_self (mkTracker "u"
         [mkExpense 12 "Food" "lunch" "2024-05-01" "Cash" "INR";
          mkExpense 80 "Rent" "may" "2024-05-02" "Bank" "INR";
          mkExpense 9 "Food" "snack" "2024-06-03" "Cash" "INR"]
         "u_expenses.json" ∅) idle) =
    (Ok r, with_self (mkTracker "u"
         [mkExpense 12 "Food" "lunch" "2024-05-01" "Cash" "INR";
          mkExpense 80 "Rent" "may" "2024-05-02" "Bank" "INR";
          mkExpense 9 "Food" "snack" "2024-06-03" "Cash" "INR"]
         "u_expenses.json" ∅) idle) /\
    subsequence_where (passes_all (Some 2024) (Some 5) (Some "Food") (Some "Cash"))
      [mkExpense 12 "Food" "lunch" "2024-05-01" "Cash" "INR";
       mkExpense 80 "Rent" "may" "2024-05-02" "Bank" "INR";
       mkExpense 9 "Food" "snack" "2024-06-03" "Cash" "INR"] r.
Proof.
  refine (filter_expenses_conjunctive (N := exact_numbers)
            (with_self (mkTracker "u"
               [mkExpense 12 "Food" "lunch" "2024-05-01" "Cash" "INR";
                mkExpense 80 "Rent" "may" "2024-05-02" "Bank" "INR";
                mkExpense 9 "Food" "snack" "2024-06-03" "Cash" "INR"]
               "u_expenses.json" ∅) idle) _ _ _ _ _).
  repeat constructor; eexists; reflexivity.
Defined.

Lemma filter_expenses_failure_witness :
  let good := mkExpense 12 "Food" "lunch" "2024-05-01" "Cash" "INR" in
  let odd := mkExpense 80 "Rent" "may" "2 May 2024" "Bank" "INR" in
  let st := with_self (mkTracker "u" [good; odd] "u_expenses.json" ∅) idle in
  filter_expenses (Some 2024) None (Some "Food") None st = (Raise ValueError, st) /\
  exists r, filter_expenses (Some 0) None (Some "Food") None st = (Ok r, st).
Proof.
  intros good odd st. split.
  - refine (proj1 (filter_expenses_failure (N := exact_numbers) st (Some 2024) None
                     (Some "Food") None _) _).
    + repeat constructor.
    + split; [left; discriminate |].
      right; left. intros [d Hd]. vm_compute in Hd. discriminate.
  - refine (proj2 (filter_expenses_failure (N := exact_numbers) st (Some 0) None
                     (Some "Food") None _) _).
    + repeat constructor.
    + intros [[H | H] _]; now apply H.
Defined.

(** ** Date ranges *)

Section DateRanges.
Context {N : Number}.

Lemma leb_refl (s : string) : String.leb s s = true.
Proof. apply Is_true_true. change (String.le s s). reflexivity. Qed.

(** X3. A range whose two ends are the same text returns exactly the
    records whose date is that text. *)
Theorem filter_by_date_range_single (st : State) (a : string) :
  exists r,
    filter_by_date_range a a st = (Ok r, st) /\
    subsequence_where (fun e => date e = a) (expenses (self st)) r.
Proof.
  eexists. split; [reflexivity |].
  eapply subsequence_where_iff; [| apply filter_subsequence_where].
  intros e. cbv beta. rewrite Is_true_true, andb_true_iff. split.
  - intros [H1 H2]. symmetry. now apply String.leb_antisym.
  - intros <-. now rewrite leb_refl.
Qed.

End DateRanges.

(** ** Search and category *)

Section SearchCategory.
Context {N : Number}.


(** X5. Whatever [filter_by_category c] returns, [search_expenses c]
    returns too, in the same order. *)
Theorem filter_by_category_within_search (st : State) (c : string) :
  exists r1 r2,
    filter_by_category c st = (Ok r1, st) /\
    search_expenses c st = (Ok r2, st) /\
    sublist r1 r2.
Proof.
  do 2 eexists. split; [reflexivity | split; [reflexivity |]].
  apply filter_greatest; [apply sublist_filter |].
  apply Forall_forall. intros e He. apply list_elem_of_filter in He as [He _].
  rewrite He. apply Is_true_true, orb_true_iff. right.
  apply contains_spec. exists "", "". now rewrite append_empty_r.
Qed.

End SearchCategory.


(** *** Dates written by [strftime] sort as the calendar does *)

Section CalendarOrder.
Context {N : Number}.

Lemma subsequence_where_iff_in {A} (P Q : A -> Prop) (l r : list A) :
  (forall x, x ∈ l -> (P x <-> Q x)) ->
  subsequence_where P l r -> subsequence_where Q l r.
Proof.
  intros HPQ (Hsub & HP & Hmax). split; [assumption | split].
  - apply Forall_forall. intros x Hx. apply HPQ.
    + eapply elem_of_sublist; eassumption.
    + rewrite Forall_forall in HP. now apply HP.
  - intros l' Hl' HQ. apply Hmax; [assumption |].
    apply Forall_forall. intros x Hx. apply HPQ.
    + eapply elem_of_sublist; eassumption.
    + rewrite Forall_forall in HQ. now apply HQ.
Qed.

Lemma digit_compare (a b : Z) :
  0 <= a <= 9 -> 0 <= b <= 9 ->
  Ascii.compare (Datetime.digit a) (Datetime.digit b) = (a ?= b).
Proof.
  intros Ha Hb.
  assert (a = 0 \/ a = 1 \/ a = 2 \/ a = 3 \/ a = 4 \/
          a = 5 \/ a = 6 \/ a = 7 \/ a = 8 \/ a = 9) as Ha' by lia.
  assert (b = 0 \/ b = 1 \/ b = 2 \/ b = 3 \/ b = 4 \/
          b = 5 \/ b = 6 \/ b = 7 \/ b = 8 \/ b = 9) as Hb' by lia.
  clear Ha Hb.
  repeat destruct Ha' as [-> | Ha']; try subst a;
    repeat destruct Hb' as [-> | Hb']; try subst b; reflexivity.
Qed.

(** Comparing two numbers is comparing their leading parts and then their
    last digits. *)
Lemma compare_last_digit (A A' b b' : Z) :
  0 <= b <= 9 -> 0 <= b' <= 9 ->
  (10 * A + b ?= 10 * A' + b') =
  match A ?= A' with Eq => b ?= b' | c => c end.
Proof.
  intros Hb Hb'. destruct (Z.compare_spec A A') as [-> | H | H].
  - apply Z.add_compare_mono_l.
  - apply Z.compare_lt_iff. lia.
  - apply Z.compare_gt_iff. lia.
Qed.

Lemma compare_cons (c c' : ascii) (s s' : string) :
  String.compare (String c s) (String c' s') =
  match Ascii.compare c c' with Eq => String.compare s s' | ne => ne end.
Proof. reflexivity. Qed.

Lemma compare_zfill2 (m m' : Z) (r r' : string) :
  0 <= m <= 99 -> 0 <= m' <= 99 ->
  String.compare (Datetime.zfill2 m ++ r) (Datetime.zfill2 m' ++ r') =
  match m ?= m' with Eq => String.compare r r' | c => c end.
Proof.
  intros Hm Hm'. unfold Datetime.zfill2. cbn [String.append].
  assert (0 <= m / 10 <= 9 /\ 0 <= m mod 10 <= 9 /\ m = 10 * (m / 10) + m mod 10)
    as (H1 & H2 & Em) by (Z.div_mod_to_equations; lia).
  assert (0 <= m' / 10 <= 9 /\ 0 <= m' mod 10 <= 9 /\ m' = 10 * (m' / 10) + m' mod 10)
    as (H1' & H2' & Em') by (Z.div_mod_to_equations; lia).
  rewrite !compare_cons, !digit_compare by assumption.
  rewrite Em, Em' at 3. rewrite compare_last_digit by assumption.
  destruct (m / 10 ?= m' / 10); [| reflexivity ..].
  now destruct (m mod 10 ?= m' mod 10).
Qed.

Lemma compare_zfill4 (y y' : Z) (r r' : string) :
  0 <= y <= 9999 -> 0 <= y' <= 9999 ->
  String.compare (Datetime.zfill4 y ++ r) (Datetime.zfill4 y' ++ r') =
  match y ?= y' with Eq => String.compare r r' | c => c end.
Proof.
  intros Hy Hy'. unfold Datetime.zfill4. cbn [String.append].
  assert (0 <= y / 1000 <= 9 /\ 0 <= y / 100 mod 10 <= 9 /\
          0 <= y / 10 mod 10 <= 9 /\ 0 <= y mod 10 <= 9 /\
          y = 10 * (10 * (10 * (y / 1000) + y / 100 mod 10) + y / 10 mod 10) + y mod 10)
    as (H1 & H2 & H3 & H4 & Ey) by (Z.div_mod_to_equations; lia).
  assert (0 <= y' / 1000 <= 9 /\ 0 <= y' / 100 mod 10 <= 9 /\
          0 <= y' / 10 mod 10 <= 9 /\ 0 <= y' mod 10 <= 9 /\
          y' = 10 * (10 * (10 * (y' / 1000) + y' / 100 mod 10) + y' / 10 mod 10) + y' mod 10)
    as (H1' & H2' & H3' & H4' & Ey') by (Z.div_mod_to_equations; lia).
  rewrite !compare_cons, !digit_compare by assumption.
  set (a := y / 1000) in *. set (b := y / 100 mod 10) in *.
  set (c := y / 10 mod 10) in *. set (d := y mod 10) in *.
  set (a' := y' / 1000) in *. set (b' := y' / 100 mod 10) in *.
  set (c' := y' / 10 mod 10) in *. set (d' := y' mod 10) in *.
  rewrite Ey, Ey'. rewrite !compare_last_digit by assumption.
  destruct (a ?= a'); [| reflexivity ..].
  destruct (b ?= b'); [| reflexivity ..].
  destruct (c ?= c'); [| reflexivity ..].
  now destruct (d ?= d').
Qed.

Lemma compare_strftime (d1 d2 : Datetime.t) :
  Datetime.valid d1 = true -> Datetime.valid d2 = true ->
  String.compare (Datetime.strftime d1) (Datetime.strftime d2) =
  match Datetime.year d1 ?= Datetime.year d2 with
  | Eq => match Datetime.month d1 ?= Datetime.month d2 with
          | Eq => Datetime.day d1 ?= Datetime.day d2
          | c => c
          end
  | c => c
  end.
Proof.
  intros H1 H2.
  apply valid_bounds in H1 as (Hy1 & Hm1 & Hd1 & Hd1').
  apply valid_bounds in H2 as (Hy2 & Hm2 & Hd2 & Hd2').
  unfold Datetime.strftime.
  rewrite compare_zfill4 by lia.
  change ("-" ++ ?s)%string with (String "-" s). rewrite compare_cons.
  change (Ascii.compare "-" "-") with Eq. cbv iota.
  rewrite compare_zfill2 by lia.
  change ("-" ++ ?s)%string with (String "-" s). rewrite compare_cons.
  change (Ascii.compare "-" "-") with Eq. cbv iota.
  rewrite <- (append_empty_r (Datetime.zfill2 (Datetime.day d1))).
  rewrite <- (append_empty_r (Datetime.zfill2 (Datetime.day d2))).
  rewrite compare_zfill2 by lia.
  change (String.compare "" "") with Eq.
  now destruct (Datetime.day d1 ?= Datetime.day d2).
Qed.

Lemma leb_strftime (d1 d2 : Datetime.t) :
  Datetime.valid d1 = true -> Datetime.valid d2 = true ->
  String.leb (Datetime.strftime d1) (Datetime.strftime d2) = true <->
  on_or_before d1 d2.
Proof.
  intros H1 H2. unfold String.leb, on_or_before.
  rewrite (compare_strftime d1 d2 H1 H2).
  destruct (Z.compare_spec (Datetime.year d1) (Datetime.year d2)) as [Hy|Hy|Hy];
    [| split; [lia | reflexivity] | split; [discriminate | lia]].
  destruct (Z.compare_spec (Datetime.month d1) (Datetime.month d2)) as [Hm|Hm|Hm];
    [| split; [lia | reflexivity] | split; [discriminate | lia]].
  destruct (Z.compare_spec (Datetime.day d1) (Datetime.day d2)) as [Hd|Hd|Hd];
    split; try discriminate; try reflexivity; lia.
Qed.

Lemma strftime_inj (d1 d2 : Datetime.t) :
  Datetime.valid d1 = true -> Datetime.valid d2 = true ->
  Datetime.strftime d1 = Datetime.strftime d2 -> d1 = d2.
Proof.
  intros H1 H2 H.
  pose proof (strptime_strftime d1 H1) as E1.
  pose proof (strptime_strftime d2 H2) as E2.
  rewrite H in E1. congruence.
Qed.

(** X6. When the dates of the ledger are written as [strftime] writes
    them (four digits, two, two), the range between two calendar dates,
    given in the same form, returns exactly the records dated from the first
    to the second, both included: the comparison of the texts is the
    comparison of the dates. *)
Theorem filter_by_date_range_calendar (st : State) (a b : Datetime.t) :
  Datetime.valid a = true -> Datetime.valid b = true ->
  Forall (fun e => exists d, dated e d) (expenses (self st)) ->
  exists r,
    filter_by_date_range (Datetime.strftime a) (Datetime.strftime b) st = (Ok r, st) /\
    subsequence_where
      (fun e => exists d, dated e d /\ on_or_before a d /\ on_or_before d b)
      (expenses (self st)) r.
Proof.
  intros Ha Hb Hl. eexists. split; [reflexivity |].
  eapply subsequence_where_iff_in; [| apply filter_subsequence_where].
  intros e He. cbv beta. rewrite Forall_forall in Hl.
  destruct (Hl e He) as (d & Hd & Hdate).
  rewrite Is_true_true, andb_true_iff, Hdate, !leb_strftime by assumption.
  split.
  - intros [H1 H2]. exists d. repeat split; assumption.
  - intros (d' & [Hd' Hdate'] & H1 & H2).
    assert (d' = d) as -> by (apply strftime_inj; congruence).
    now split.
Qed.

End CalendarOrder.

Lemma filter_by_date_range_calendar_witness :
  exists r,
    filter_by_date_range "2024-04-30" "2024-05-02"
      (with_self (mkTracker "u"
         [mkExpense 12 "Food" "lunch" "2024-05-01" "Cash" "INR";
          mkExpense 80 "Rent" "may" "2024-05-02" "Bank" "INR";
          mkExpense 9 "Food" "snack" "2023-12-31" "Cash" "INR"]
         "u_expenses.json" ∅) idle) =
    (Ok r, with_self (mkTracker "u"
         [mkExpense 12 "Food" "lunch" "2024-05-01" "Cash" "INR";
          mkExpense 80 "Rent" "may" "2024-05-02" "Bank" "INR";
          mkExpense 9 "Food" "snack" "2023-12-31" "Cash" "INR"]
         "u_expenses.json" ∅) idle) /\
    subsequence_where
      (fun e => exists d, dated e d /\
                          on_or_before (Datetime.mk 2024 4 30) d /\
                          on_or_before d (Datetime.mk 2024 5 2))
      [mkExpense 12 "Food" "lunch" "2024-05-01" "Cash" "INR";
       mkExpense 80 "Rent" "may" "2024-05-02" "Bank" "INR";
       mkExpense 9 "Food" "snack" "2023-12-31" "Cash" "INR"] r.
Proof.
  refine (filter_by_date_range_calendar (N := exact_numbers)
            (with_self (mkTracker "u"
               [mkExpense 12 "Food" "lunch" "2024-05-01" "Cash" "INR";
                mkExpense 80 "Rent" "may" "2024-05-02" "Bank" "INR";
                mkExpense 9 "Food" "snack" "2023-12-31" "Cash" "INR"]
               "u_expenses.json" ∅) idle)
            (Datetime.mk 2024 4 30) (Datetime.mk 2024 5 2) _ _ _).
  - reflexivity.
  - reflexivity.
  - repeat constructor.
    + exists (Datetime.mk 2024 5 1). split; reflexivity.
    + exists (Datetime.mk 2024 5 2). split; reflexivity.
    + exists (Datetime.mk 2023 12 31). split; reflexivity.
Defined.

(** ** Adding and the budget check *)

Section AddAndCheck.
Context {N : Number}.






(** X9. Adding a record whose amount is equal to itself by the program's
    [==] (every number but a NaN) and then deleting by its four fields
    removes it again, together with every older record that has the same
    four fields: the ledger is the old one without those records, the file
    holds its dump, and when no older record has these fields the ledger is
    the old one. *)
Theorem add_then_delete (st : State) (now : Datetime.t) (r : Expense) :
  num_eqb (amount r) (amount r) = true ->
  let st1 := snd (add_expense now r st) in
  let st2 := snd (delete_expense (date r) (category r) (amount r) (description r) st1) in
  subsequence_where
    (fun e => ~ same_tuple (date r) (category r) (amount r) (description r) e)
    (expenses (self st)) (expenses (self st2)) /\
  files st2 !! filename (self st) = Some (dump_ledger (expenses (self st2))) /\
  ((forall e, e ∈ expenses (self st) ->
      ~ same_tuple (date r) (category r) (amount r) (description r) e) ->
   expenses (self st2) = expenses (self st)).
Proof.
  intros Hrefl st1 st2.
  destruct (add_expense_appends now r st) as [Hself Hfiles]. fold st1 in Hself, Hfiles.
  assert (expenses (self st2) =
          filter (fun e => Is_true (negb (matches (date r) (category r) (amount r)
                                            (description r) e)))
            (expenses (self st))) as Hexp.
  { change (expenses (self st2)) with
      (filter (fun e => Is_true (negb (matches (date r) (category r) (amount r)
                                         (description r) e)))
         (expenses (self st1))).
    rewrite Hself. cbn [after_append self expenses].
    rewrite filter_app, filter_cons_False, filter_nil, app_nil_r; [reflexivity |].
    rewrite not_matches_spec. intros H. apply H. now repeat split. }
  split; [| split].
  - rewrite Hexp.
    eapply subsequence_where_iff; [| apply filter_subsequence_where].
    intros e. apply not_matches_spec.
  - change (files st2) with
      (<[filename (self st1) := dump_ledger (expenses (self st2))]> (files st1)).
    rewrite Hself. cbn [after_append self filename]. apply lookup_insert_eq.
  - intros H. rewrite Hexp. apply filter_all, Forall_forall. intros e He.
    apply not_matches_spec. now apply H.
Qed.

End AddAndCheck.


Lemma add_then_delete_witness :
  let lunch := mkExpense 12 "Food" "lunch" "2024-05-01" "Cash" "INR" in
  let rent := mkExpense 80 "Rent" "may" "2024-05-02" "Bank" "INR" in
  let st := with_self (mkTracker "u" [lunch; rent] "u_expenses.json" ∅) idle in
  let st1 := snd (add_expense (Datetime.mk 2024 5 20) lunch st) in
  let st2 := snd (delete_expense "2024-05-01" "Food" 12 "lunch" st1) in
  expenses (self st1) = [lunch; rent; lunch] /\
  expenses (self st2) = [rent] /\
  subsequence_where (fun e => ~ same_tuple "2024-05-01" "Food" 12 "lunch" e)
    [lunch; rent] (expenses (self st2)).
Proof.
  intros lunch rent st st1 st2.
  split; [reflexivity |]. split; [reflexivity |].
  refine (proj1 (add_then_delete (N := exact_numbers) st (Datetime.mk 2024 5 20) lunch _)).
  reflexivity.
Defined.

(** The hypothesis of X9 is needed: a record whose amount is a NaN does
    not match its own fields, and stays. *)
Example add_then_delete_nan :
  let r := mkExpense (N := numbers_with_nan) None "Food" "lunch" "2024-05-01" "Cash" "INR" in
  let st1 := snd (add_expense (Datetime.mk 2024 5 20) r idle) in
  num_eqb (amount r) (amount r) = false /\
  expenses (self (snd (delete_expense (date r) (category r) (amount r) (description r) st1)))
  = [r].
Proof. split; reflexivity. Qed.

(** ** Budgets and restarts *)

Section Restarts.
Context {N : Number}.

Lemma comprehension_budgets (kvs : list (string * num)) :
  comprehension (fun '(k, v) => outcome_bind (as_num v) (fun q => Ok (k, q)))
    (prod_map id JNum <$> kvs) = Ok kvs.
Proof.
  induction kvs as [|[k q] kvs IH]; [reflexivity |].
  cbn [fmap list_fmap comprehension prod_map fst snd id as_num outcome_bind].
  change (list_fmap _ _ (prod_map id JNum) kvs) with (prod_map id JNum <$> kvs).
  now rewrite IH.
Qed.

Lemma list_to_map_reverse (b : gmap string num) :
  list_to_map (reverse (map_to_list b)) = b.
Proof.
  rewrite <- (list_to_map_to_list b) at 2. apply list_to_map_proper.
  - rewrite fmap_reverse, reverse_Permutation. apply NoDup_fst_map_to_list.
  - apply reverse_Permutation.
Qed.

(** Loading the budgets of a tracker object [t] from a state whose budget
    file holds the dump of [b] gives the budgets [b]. *)
Lemma load_budgets_of_dump (t : ExpenseTracker) (st : State) (b : gmap string num) :
  files st !! budget_file (username t) = Some (dump_budgets b) ->
  load_budgets (with_self t st) =
    (Ok tt, with_self (mkTracker (username t) (expenses t) (filename t) b) st).
Proof.
  intros Hf. unfold load_budgets, json_load. run_M.
  rewrite Hf. rewrite bool_decide_eq_true_2 by eauto.
  run_M. rewrite Hf. unfold dump_budgets. cbv beta iota.
  rewrite comprehension_budgets, list_to_map_reverse. reflexivity.
Qed.

Lemma load_budgets_absent (st : State) :
  files st !! budget_file (username (self st)) = None ->
  load_budgets st = (Ok tt, st).
Proof.
  intros Hf. unfold load_budgets. run_M.
  rewrite Hf, bool_decide_eq_false_2; [reflexivity |].
  intros [? ?]; discriminate.
Qed.

Lemma load_expenses_absent now (st : State) :
  files st !! filename (self st) = None ->
  load_expenses now st = (Ok tt, st).
Proof.
  intros Hf. unfold load_expenses. run_M.
  rewrite Hf, bool_decide_eq_false_2; [reflexivity |].
  intros [? ?]; discriminate.
Qed.

Lemma file_names_differ (user : string) : expenses_file user <> budget_file user.
Proof.
  unfold expenses_file, budget_file. intros H.
  apply (inj (String.append user)) in H. discriminate.
Qed.

(** X10. [set_budget c a] returns normally, leaves the ledger alone, and
    makes [a] the ceiling of [c] in memory and on disk: loading the budgets
    of any tracker object of the same user from the files as they are then
    gives the old budgets with [c] set to [a] (a former ceiling of [c] is
    replaced, the other categories keep theirs). *)
Theorem set_budget_then_reload (st : State) (c : string) (a : num)
    (l : list Expense) (f : string) (b : gmap string num) :
  let st1 := snd (set_budget c a st) in
  fst (set_budget c a st) = Ok tt /\
  expenses (self st1) = expenses (self st) /\
  budgets (self st1) = <[c := a]> (budgets (self st)) /\
  exists st2,
    load_budgets (with_self (mkTracker (username (self st)) l f b) st1) = (Ok tt, st2) /\
    budgets (self st2) = <[c := a]> (budgets (self st)) /\
    budgets (self st2) !! c = Some a /\
    (forall c', c' <> c -> budgets (self st2) !! c' = budgets (self st) !! c').
Proof.
  intros st1. split; [reflexivity |]. split; [reflexivity |]. split; [reflexivity |].
  eexists. split.
  - apply (load_budgets_of_dump (mkTracker (username (self st)) l f b) st1
             (<[c := a]> (budgets (self st)))).
    apply lookup_insert_eq.
  - cbn [with_self self budgets]. split; [reflexivity |]. split.
    + apply lookup_insert_eq.
    + intros c' Hc'. now apply lookup_insert_ne.
Qed.

Lemma synced_after_add now r st :
  synced st -> date r <> "" -> synced (snd (add_expense now r st)).
Proof.
  intros (Hname & Hdates & _ & Hb) Hr.
  destruct (add_expense_appends now r st) as [Hself Hfiles].
  unfold synced. rewrite Hself, Hfiles. cbn [after_append self files username
    expenses filename budgets].
  split; [assumption |]. split; [| split].
  - apply Forall_app. split; [assumption | now constructor].
  - left. apply lookup_insert_eq.
  - rewrite lookup_insert_ne; [assumption |].
    rewrite Hname. apply file_names_differ.
Qed.

Lemma synced_after_delete d c a ds st :
  synced st -> synced (snd (delete_expense d c a ds st)).
Proof.
  intros (Hname & Hdates & _ & Hb).
  unfold synced, delete_expense. run_M.
  split; [assumption |]. split; [| split].
  - apply Forall_forall. intros e He. apply list_elem_of_filter in He as [_ He].
    rewrite Forall_forall in Hdates. now apply Hdates.
  - left. apply lookup_insert_eq.
  - rewrite lookup_insert_ne; [assumption |].
    rewrite Hname. apply file_names_differ.
Qed.

Lemma synced_after_set_budget c a st :
  synced st -> synced (snd (set_budget c a st)).
Proof.
  intros (Hname & Hdates & Hl & _).
  unfold synced, set_budget. run_M.
  split; [assumption |]. split; [assumption |]. split.
  - rewrite lookup_insert_ne; [assumption |].
    rewrite Hname. intros H. symmetry in H. now apply file_names_differ in H.
  - left. apply lookup_insert_eq.
Qed.

Lemma synced_restart now st :
  synced st -> ExpenseTracker_init now (username (self st)) st = (Ok tt, st).
Proof.
  intros (Hname & Hdates & Hl & Hb).
  destruct st as [[u l f b] fs dl rq]. cbn [self username expenses filename budgets files] in *.
  subst f.
  assert (load_expenses now
            (with_self (fresh_tracker u) (mkState (mkTracker u l (expenses_file u) b) fs dl rq)) =
          (Ok tt, mkState (mkTracker u l (expenses_file u) ∅) fs dl rq)) as H1.
  { destruct Hl as [Hl | [Hl ->]].
    - exact (load_expenses_of_dump now (fresh_tracker u)
               (mkState (mkTracker u l (expenses_file u) b) fs dl rq) l Hdates Hl).
    - now rewrite load_expenses_absent. }
  assert (load_budgets (mkState (mkTracker u l (expenses_file u) ∅) fs dl rq) =
          (Ok tt, mkState (mkTracker u l (expenses_file u) b) fs dl rq)) as H2.
  { destruct Hb as [Hb | [Hb ->]].
    - exact (load_budgets_of_dump (mkTracker u l (expenses_file u) ∅)
               (mkState (mkTracker u l (expenses_file u) ∅) fs dl rq) b Hb).
    - now rewrite load_budgets_absent. }
  unfold ExpenseTracker_init.
  unfold mbind at 1, M_bind at 1, modify at 1.
  unfold mbind at 1, M_bind at 1. rewrite H1.
  unfold mbind at 1, M_bind at 1, set_budgets, modify. cbn [self files dialogs requests
    username expenses filename budgets].
  exact H2.
Qed.

(** X11. The agreement between the tracker and its two files ([synced])
    holds after the constructor has run for a user who has no file yet, and
    it is kept by [add_expense] (for a record with a date, whatever the
    outcome of the budget check), by [delete_expense] and by [set_budget]. *)
Theorem synced_invariant (st : State) (now : Datetime.t) (r : Expense)
    (d c : string) (a : num) (ds : string) :
  synced st ->
  (date r <> "" -> synced (snd (add_expense now r st))) /\
  synced (snd (delete_expense d c a ds st)) /\
  synced (snd (set_budget c a st)) /\
  (forall user fs,
     fs !! expenses_file user = None -> fs !! budget_file user = None ->
     synced (snd (ExpenseTracker_init now user (mkState (self st) fs [] [])))).
Proof.
  intros H. split; [| split; [| split]].
  - intros Hr. now apply synced_after_add.
  - now apply synced_after_delete.
  - now apply synced_after_set_budget.
  - intros user fs He Hb.
    assert (ExpenseTracker_init now user (mkState (self st) fs [] []) =
            (Ok tt, mkState (fresh_tracker user) fs [] [])) as ->.
    { unfold ExpenseTracker_init.
      unfold mbind at 1, M_bind at 1, modify at 1. cbn [with_self files dialogs requests].
      unfold mbind at 1, M_bind at 1. rewrite load_expenses_absent by exact He.
      unfold mbind at 1, M_bind at 1, set_budgets, modify.
      cbn [self files dialogs requests username expenses filename budgets fresh_tracker].
      now rewrite load_budgets_absent. }
    unfold synced. cbn. split; [reflexivity |]. split; [constructor |].
    split; right; split; auto.
Qed.

(** X12. Restarting from a state where the tracker and its files agree is
    the identity: the constructor, run for the same user on the files as
    they are, returns normally with the same ledger and the same budgets,
    and writes nothing. *)
Theorem restart_restores (st : State) (now now' : Datetime.t) (r : Expense)
    (c : string) (a : num) :
  synced st ->
  ExpenseTracker_init now (username (self st)) st = (Ok tt, st) /\
  (date r <> "" ->
   let st1 := snd (set_budget c a (snd (add_expense now r st))) in
   ExpenseTracker_init now' (username (self st)) st1 = (Ok tt, st1)).
Proof.
  intros H. split; [now apply synced_restart |].
  intros Hr st1.
  assert (synced st1) as H1
    by (apply synced_after_set_budget, synced_after_add; assumption).
  assert (username (self st1) = username (self st)) as <-.
  { subst st1. destruct (add_expense_appends now r st) as [Hself _].
    change (username (self (snd (set_budget c a (snd (add_expense now r st))))))
      with (username (self (snd (add_expense now r st)))).
    now rewrite Hself. }
  now apply synced_restart.
Qed.

Lemma budget_file_errors_init now user st (e : exn) :
  files st !! expenses_file user = None ->
  load_budgets (with_self (fresh_tracker user) st) =
    (Raise e, with_self (fresh_tracker user) st) ->
  ExpenseTracker_init now user st = (Raise e, with_self (fresh_tracker user) st).
Proof.
  intros He H. unfold ExpenseTracker_init.
  unfold mbind at 1, M_bind at 1, modify at 1.
  unfold mbind at 1, M_bind at 1. rewrite load_expenses_absent by exact He.
  unfold mbind at 1, M_bind at 1, set_budgets, modify.
  cbn [with_self self files dialogs requests username expenses filename budgets
       fresh_tracker] in *.
  exact H.
Qed.

(** X13. The budget file is read like the ledger file: absent, the budgets
    are empty and nothing is raised; present and not JSON, [load_budgets]
    raises [JSONDecodeError], which leaves the constructor of a user who has
    no ledger file. *)
Theorem load_budgets_absent_or_malformed (now : Datetime.t) (user : string) (st : State) :
  let st0 := with_self (fresh_tracker user) st in
  (files st !! budget_file user = None ->
     load_budgets st0 = (Ok tt, st0) /\ budgets (self st0) = ∅) /\
  (forall text, files st !! budget_file user = Some (NotJson text) ->
     load_budgets st0 = (Raise JSONDecodeError, st0) /\
     (files st !! expenses_file user = None ->
      ExpenseTracker_init now user st = (Raise JSONDecodeError, st0))).
Proof.
  intros st0. split.
  - intros Hf. split; [| reflexivity]. now apply load_budgets_absent.
  - intros text Hf.
    assert (load_budgets st0 = (Raise JSONDecodeError, st0)) as H.
    { unfold st0, load_budgets, json_load. run_M. cbn [fresh_tracker username].
      rewrite Hf, bool_decide_eq_true_2 by eauto. run_M. cbn [fresh_tracker username].
      now rewrite Hf. }
    split; [assumption |]. intros He. now apply budget_file_errors_init.
Qed.

End Restarts.

Lemma synced_invariant_witness :
  synced (snd (add_expense (Datetime.mk 2024 5 20)
                 (mkExpense 12 "Food" "lunch" "2024-05-20" "Cash" "INR") idle)).
Proof.
  apply (synced_invariant (N := exact_numbers) idle (Datetime.mk 2024 5 20)
           (mkExpense (N := exact_numbers) 12 "Food" "lunch" "2024-05-20" "Cash" "INR")
           "" "" 0 "").
  - unfold synced. cbn. split; [reflexivity |]. split; [constructor |].
    split; right; split; reflexivity.
  - discriminate.
Defined.

Lemma restart_restores_witness :
  ExpenseTracker_init (Datetime.mk 2024 5 20) "u" idle = (Ok tt, idle).
Proof.
  apply (restart_restores (N := exact_numbers) idle (Datetime.mk 2024 5 20)
           (Datetime.mk 2024 5 21)
           (mkExpense (N := exact_numbers) 12 "Food" "lunch" "2024-05-20" "Cash" "INR")
           "Food" 100).
  unfold synced. cbn. split; [reflexivity |]. split; [constructor |].
  split; right; split; reflexivity.
Defined.

(** ** Recurring expenses that have no day *)

Section NoSuchDay.
Context {N : Number}.

(** X14. For a day within the C integers (from -2^31 to 2^31 - 1, the
    range in which [replace] reads its arguments) that does not exist in the
    target month (the 30th in February, a day below 1, a month of year
    10000), [add_recurring_expense] raises [ValueError] and changes nothing:
    no record is appended and no file is written.  For a day outside the C
    integers it raises [OverflowError], and changes nothing either. *)
Theorem add_recurring_expense_no_such_day (st : State) (today : Datetime.t)
    (amount_ : num) (category_ description_ : string) (day_of_month : Z) :
  Datetime.valid today = true ->
  (- 2 ^ 31 <= day_of_month < 2 ^ 31 ->
   Datetime.valid (spec_recurring_target today day_of_month) = false ->
   add_recurring_expense today amount_ category_ description_ day_of_month st =
     (Raise ValueError, st)) /\
  (~ - 2 ^ 31 <= day_of_month < 2 ^ 31 ->
   add_recurring_expense today amount_ category_ description_ day_of_month st =
     (Raise OverflowError, st)).
Proof.
  intros Htoday.
  pose proof (recurring_target_run today day_of_month st Htoday) as Hrun.
  split.
  - intros Hc Htarget. apply c_int_bounds in Hc. rewrite Hc, Htarget in Hrun.
    unfold add_recurring_expense. cbv beta zeta. unfold mbind at 1, M_bind at 1.
    now rewrite Hrun.
  - intros Hc. destruct (Datetime.c_int day_of_month) eqn:E;
      [now apply c_int_bounds in E |].
    unfold add_recurring_expense. cbv beta zeta. unfold mbind at 1, M_bind at 1.
    now rewrite Hrun.
Qed.

End NoSuchDay.

Lemma add_recurring_expense_no_such_day_witness :
  add_recurring_expense (Datetime.mk 2023 1 31) 100 "Rent" "rent" 30 idle =
    (Raise ValueError, idle) /\
  add_recurring_expense (Datetime.mk 2023 1 31) 100 "Rent" "rent" (2 ^ 31) idle =
    (Raise OverflowError, idle).
Proof.
  split.
  - apply (add_recurring_expense_no_such_day (N := exact_numbers) idle
             (Datetime.mk 2023 1 31) 100 "Rent" "rent" 30); [reflexivity | lia | reflexivity].
  - apply (add_recurring_expense_no_such_day (N := exact_numbers) idle
             (Datetime.mk 2023 1 31) 100 "Rent" "rent" (2 ^ 31)); [reflexivity | lia].
Defined.

(** ** The summary after an addition *)

Section SummaryAfterAdd.
Context {N : Number}.


End SummaryAfterAdd.


(** ** Currency conversion *)

Section Containment.
Context {N : Number}.

Lemma convert_currency_cases net st amount_ from_currency to_currency :
  let res := convert_currency net amount_ from_currency to_currency st in
  res = (Ok (Some amount_), st) \/
  (exists q, res = (Ok (Some q), with_request (rate_url from_currency) st)) \/
  (exists e, res = (Ok None, with_dialog (showerror "Currency Conversion Error" e)
                               (with_request (rate_url from_currency) st))) \/
  res = (Unmodelled, with_request (rate_url from_currency) st).
Proof.
  cbv zeta. unfold convert_currency.
  destruct (String.eqb from_currency to_currency); [now left |]. right.
  unfold try_except, mbind, M_bind. rewrite fetch_rate_run.
  destruct (lookup_rate net from_currency to_currency) as [e|rate].
  - right. left. exists e. reflexivity.
  - unfold lift_outcome.
    destruct (times amount_ rate) as [q|e|].
    + left. exists q. reflexivity.
    + right. left. exists e. reflexivity.
    + right. right. reflexivity.
Qed.

(** X16. [convert_currency] never lets an exception out, whatever the
    service does, and touches neither the tracker nor the files; it sends at
    most one request, to the address of the source currency, and shows at
    most one dialog. *)
Theorem convert_currency_contained (net : string -> response) (st : State)
    (amount_ : num) (from_currency to_currency : string) :
  let res := convert_currency net amount_ from_currency to_currency st in
  (forall e, fst res <> Raise e) /\
  self (snd res) = self st /\
  files (snd res) = files st /\
  (requests (snd res) = requests st \/
   requests (snd res) = (requests st ++ [rate_url from_currency])%list) /\
  (dialogs (snd res) = dialogs st \/
   exists e, dialogs (snd res) =
             (dialogs st ++ [showerror "Currency Conversion Error" e])%list).
Proof.
  intros res.
  destruct (convert_currency_cases net st amount_ from_currency to_currency)
    as [H | [[q H] | [[e H] | H]]]; fold res in H; rewrite H; cbn;
    (split; [intros ?; discriminate |]);
    (split; [reflexivity |]); (split; [reflexivity |]);
    (split; [first [left; reflexivity | right; reflexivity]
            | first [left; reflexivity | right; eexists; reflexivity]]).
Qed.

End Containment.

(** ** Deletions commute *)

Section Commute.
Context {N : Number}.

(** X17. Two deletions give the same ledger and the same files in either
    order. *)
Theorem delete_expense_commutes (st : State) (d1 c1 : string) (a1 : num) (ds1 : string)
    (d2 c2 : string) (a2 : num) (ds2 : string) :
  snd (delete_expense d2 c2 a2 ds2 (snd (delete_expense d1 c1 a1 ds1 st))) =
  snd (delete_expense d1 c1 a1 ds1 (snd (delete_expense d2 c2 a2 ds2 st))).
Proof.
  unfold delete_expense. run_M.
  rewrite !insert_insert_eq, !list_filter_filter.
  assert (filter (fun a => Is_true (negb (matches d2 c2 a2 ds2 a)) /\
                           Is_true (negb (matches d1 c1 a1 ds1 a))) (expenses (self st)) =
          filter (fun a => Is_true (negb (matches d1 c1 a1 ds1 a)) /\
                           Is_true (negb (matches d2 c2 a2 ds2 a))) (expenses (self st)))
    as -> by (apply list_filter_iff; intros e; tauto).
  reflexivity.
Qed.

End Commute.

(** ** Authentication *)

Section Logins.
Context {N : Number}.

Lemma dict_get_is_Some (k : string) (kv : list (string * json)) :
  is_Some (dict_get k kv) <-> k ∈ kv.*1.
Proof.
  induction kv as [|[k' v] kv IH]; cbn [dict_get fmap list_fmap fst].
  - split; [intros [? ?]; discriminate | intros H; now apply not_elem_of_nil in H].
  - change (list_fmap _ _ fst kv) with (kv.*1). rewrite elem_of_cons, <- IH.
    destruct (dict_get k kv) as [w|].
    + split; eauto.
    + destruct (String.eqb_spec k k') as [->|Hne].
      * split; eauto.
      * split; [intros [? ?]; discriminate | intros [? | [? ?]]; [contradiction | discriminate]].
Qed.

Lemma dict_set_keys (k : string) (v : json) (d : list (string * json)) (x : string) :
  x ∈ (dict_set k v d).*1 <-> x = k \/ x ∈ d.*1.
Proof.
  induction d as [|[k' v'] d IH]; cbn [dict_set fmap list_fmap fst].
  - rewrite list_elem_of_singleton. cbn. rewrite elem_of_nil. tauto.
  - change (list_fmap _ _ fst d) with (d.*1).
    destruct (String.eqb_spec k k') as [->|Hne]; cbn [fmap list_fmap fst].
    + change (list_fmap _ _ fst d) with (d.*1). rewrite !elem_of_cons. tauto.
    + change (list_fmap _ _ fst (dict_set k v d)) with ((dict_set k v d).*1).
      rewrite !elem_of_cons, IH. tauto.
Qed.

Lemma dict_set_NoDup (k : string) (v : json) (d : list (string * json)) :
  NoDup d.*1 -> NoDup (dict_set k v d).*1.
Proof.
  induction d as [|[k' v'] d IH]; cbn [dict_set fmap list_fmap fst]; intros Hd.
  - repeat constructor. apply not_elem_of_nil.
  - change (list_fmap _ _ fst d) with (d.*1) in *.
    apply NoDup_cons in Hd as [Hk' Hd].
    destruct (String.eqb_spec k k') as [->|Hne]; cbn [fmap list_fmap fst].
    + change (list_fmap _ _ fst d) with (d.*1). now apply NoDup_cons.
    + change (list_fmap _ _ fst (dict_set k v d)) with ((dict_set k v d).*1).
      apply NoDup_cons. split; [| now apply IH].
      rewrite dict_set_keys. intros [? | ?]; [congruence | contradiction].
Qed.

Lemma dict_get_None (k : string) (d : list (string * json)) :
  k ∉ d.*1 -> dict_get k d = None.
Proof.
  intros H. destruct (dict_get k d) eqn:E; [| reflexivity].
  exfalso. apply H, dict_get_is_Some. eauto.
Qed.

Lemma dict_get_set (k k' : string) (v : json) (d : list (string * json)) :
  NoDup d.*1 ->
  dict_get k (dict_set k' v d) = if String.eqb k k' then Some v else dict_get k d.
Proof.
  induction d as [|[k0 v0] d IH]; cbn [dict_set dict_get fmap list_fmap fst]; intros Hd.
  - now destruct (String.eqb k k').
  - change (list_fmap _ _ fst d) with (d.*1) in *.
    apply NoDup_cons in Hd as [Hk0 Hd].
    destruct (String.eqb_spec k' k0) as [->|Hne]; cbn [dict_get].
    + destruct (String.eqb_spec k k0) as [->|Hk].
      * now rewrite (dict_get_None k0 d Hk0).
      * reflexivity.
    + rewrite IH by assumption.
      now destruct (String.eqb_spec k k') as [->|Hk].
Qed.

Lemma dict_get_fold (k : string) (kv d : list (string * json)) :
  NoDup d.*1 ->
  dict_get k (fold_left (fun d '(k, v) => dict_set k v d) kv d) =
  match dict_get k kv with Some w => Some w | None => dict_get k d end.
Proof.
  revert d; induction kv as [|[k' v] kv IH]; intros d Hd; [reflexivity |].
  cbn [fold_left dict_get]. rewrite IH by now apply dict_set_NoDup.
  rewrite dict_get_set by assumption.
  destruct (dict_get k kv); [reflexivity |].
  now destruct (String.eqb k k').
Qed.

(** The [dict] built from the members of an object answers lookups as the
    members do: the last member of a name counts. *)
Lemma dict_get_dict_of (k : string) (kv : list (string * json)) :
  dict_get k (dict_of kv) = dict_get k kv.
Proof.
  unfold dict_of. rewrite dict_get_fold by constructor.
  now destruct (dict_get k kv).
Qed.

Lemma dict_get_app_last (k k' : string) (v : json) (d : list (string * json)) :
  dict_get k (d ++ [(k', v)]) = if String.eqb k k' then Some v else dict_get k d.
Proof.
  induction d as [|[k0 v0] d IH]; cbn [app dict_get].
  - now destruct (String.eqb k k').
  - rewrite IH. destruct (String.eqb k k'); [reflexivity |].
    reflexivity.
Qed.

Lemma key_in_spec (u : string) (users : list (string * json)) :
  key_in (Some u) users = bool_decide (is_Some (dict_get u users)).
Proof.
  unfold key_in. apply bool_decide_ext. symmetry. apply dict_get_is_Some.
Qed.

(** What [authenticate] does for a login, in terms of the stored password. *)
Lemma authenticate_login (fs : gmap string content) (u : string) (p : option string) :
  users_ok fs ->
  authenticate (Some "login") (Some u) p fs =
  if match stored_password fs u with
     | Some v => eq_answer v p
     | None => false
     end
  then (Ok (Some u, p), fs, [showinfo "Success" "Login successful!"])
  else (Ok (None, None), fs, [showerror_text "Error" "Invalid credentials!"]).
Proof.
  unfold users_ok, stored_password, authenticate.
  destruct (fs !! users_file) as [[text|[| | | | |kv]]|]; try contradiction; intros _.
  - rewrite bool_decide_eq_false_2 by discriminate.
    rewrite bool_decide_eq_true_2 by reflexivity.
    rewrite key_in_spec. cbn [dumped_key]. rewrite dict_get_dict_of.
    destruct (dict_get u kv) as [v|].
    + rewrite bool_decide_eq_true_2 by eauto. cbn [default from_option id andb].
      reflexivity.
    + rewrite bool_decide_eq_false_2 by (intros [? ?]; discriminate). reflexivity.
  - reflexivity.
Qed.

(** The members [authenticate] writes when it registers. *)
Lemma authenticate_register (fs : gmap string content) (u p : option string) :
  users_ok fs ->
  match u with Some name => stored_password fs name = None | None => True end ->
  exists users,
    (forall k, dict_get k users = stored_password fs k) /\
    authenticate (Some "register") u p fs =
      (Ok (u, p),
       <[users_file := JsonDoc (JObj (users ++ [(dumped_key u, dumped_value p)]))]> fs,
       [showinfo "Success" "User registered successfully!"]).
Proof.
  unfold users_ok, stored_password, authenticate.
  destruct (fs !! users_file) as [[text|[| | | | |kv]]|]; try contradiction; intros _ Hnew.
  - exists (dict_of kv). split; [intros k; apply dict_get_dict_of |].
    rewrite bool_decide_eq_true_2 by reflexivity.
    destruct u as [name|]; [| reflexivity].
    rewrite key_in_spec, dict_get_dict_of, Hnew.
    rewrite bool_decide_eq_false_2 by (intros [? ?]; discriminate). reflexivity.
  - exists []. split; [reflexivity |].
    rewrite bool_decide_eq_true_2 by reflexivity.
    destruct u as [name|]; reflexivity.
Qed.

Lemma stored_password_after (fs : gmap string content) (users : list (string * json))
    (k' : string) (v : json) (k : string) :
  stored_password (<[users_file := JsonDoc (JObj (users ++ [(k', v)]))]> fs) k =
  if String.eqb k k' then Some v else dict_get k users.
Proof.
  unfold stored_password. rewrite lookup_insert_eq. apply dict_get_app_last.
Qed.

Lemma users_ok_after (fs : gmap string content) (kv : list (string * json)) :
  users_ok (<[users_file := JsonDoc (JObj kv)]> fs).
Proof. unfold users_ok. now rewrite lookup_insert_eq. Qed.

(** X18. Registering a name that the users file does not hold, with a
    password, succeeds and writes it; a login with that name and password
    then succeeds, and a login with that name and any other answer to the
    password dialog is refused. *)
Theorem register_then_login (fs : gmap string content) (u p : string) :
  users_ok fs ->
  stored_password fs u = None ->
  exists fs',
    authenticate (Some "register") (Some u) (Some p) fs =
      (Ok (Some u, Some p), fs', [showinfo "Success" "User registered successfully!"]) /\
    authenticate (Some "login") (Some u) (Some p) fs' =
      (Ok (Some u, Some p), fs', [showinfo "Success" "Login successful!"]) /\
    (forall q, q <> Some p ->
       authenticate (Some "login") (Some u) q fs' =
         (Ok (None, None), fs', [showerror_text "Error" "Invalid credentials!"])).
Proof.
  intros Hok Hnew.
  destruct (authenticate_register fs (Some u) (Some p) Hok Hnew) as (users & Hget & Hreg).
  eexists. split; [exact Hreg |]. cbn [dumped_key dumped_value].
  split.
  - rewrite authenticate_login by apply users_ok_after.
    rewrite stored_password_after, String.eqb_refl. cbn [eq_answer].
    now rewrite String.eqb_refl.
  - intros q Hq. rewrite authenticate_login by apply users_ok_after.
    rewrite stored_password_after, String.eqb_refl.
    destruct q as [q|]; cbn [eq_answer]; [| reflexivity].
    destruct (String.eqb_spec p q) as [->|]; [congruence | reflexivity].
Qed.

Lemma authenticate_register_taken (fs : gmap string content) (u : string)
    (p : option string) (v : json) :
  stored_password fs u = Some v ->
  authenticate (Some "register") (Some u) p fs =
    (Ok (None, None), fs, [showerror_text "Error" "User already exists!"]).
Proof.
  unfold stored_password, authenticate.
  destruct (fs !! users_file) as [[text|[| | | | |kv]]|]; try discriminate.
  intros Hv. rewrite bool_decide_eq_true_2 by reflexivity.
  rewrite key_in_spec, dict_get_dict_of, Hv.
  rewrite bool_decide_eq_true_2 by eauto. reflexivity.
Qed.

Lemma stored_password_users_ok (fs : gmap string content) (u : string) (v : json) :
  stored_password fs u = Some v -> users_ok fs.
Proof.
  unfold stored_password, users_ok.
  now destruct (fs !! users_file) as [[text|[| | | | |kv]]|].
Qed.

(** X19. Registering a name that the users file already holds is refused,
    whatever password is given: an error is shown, the pair (None, None) is
    returned and the files stay as they were, so that a login with the
    password stored before still succeeds. *)
Theorem register_existing_refused (fs : gmap string content) (u : string)
    (p : option string) (s : string) :
  stored_password fs u = Some (JStr s) ->
  authenticate (Some "register") (Some u) p fs =
    (Ok (None, None), fs, [showerror_text "Error" "User already exists!"]) /\
  authenticate (Some "login") (Some u) (Some s) fs =
    (Ok (Some u, Some s), fs, [showinfo "Success" "Login successful!"]).
Proof.
  intros Hv. split; [now apply (authenticate_register_taken fs u p (JStr s)) |].
  rewrite authenticate_login by (eapply stored_password_users_ok; eassumption).
  rewrite Hv. cbn [eq_answer]. now rewrite String.eqb_refl.
Qed.

(** X20. A registration leaves the other users alone: whatever is
    registered, every other name has the stored password it had, so its
    logins succeed or fail as before. *)
Theorem register_keeps_other_users (fs : gmap string content) (u p : option string)
    (u' : string) (p' : option string) :
  users_ok fs ->
  u' <> dumped_key u ->
  let fs' := snd (fst (authenticate (Some "register") u p fs)) in
  stored_password fs' u' = stored_password fs u' /\
  fst (fst (authenticate (Some "login") (Some u') p' fs')) =
  fst (fst (authenticate (Some "login") (Some u') p' fs)).
Proof.
  intros Hok Hne fs'.
  assert (users_ok fs' /\ stored_password fs' u' = stored_password fs u') as [Hok' Hst].
  { subst fs'.
    destruct (match u with
              | Some name => stored_password fs name
              | None => None
              end) as [v|] eqn:Hu.
    - destruct u as [name|]; [| discriminate].
      rewrite (authenticate_register_taken fs name p v Hu). cbn [fst snd].
      split; [assumption | reflexivity].
    - destruct (authenticate_register fs u p Hok) as (users & Hget & ->).
      { destruct u; [exact Hu | exact I]. }
      cbn [fst snd]. split; [apply users_ok_after |].
      rewrite stored_password_after, (proj2 (String.eqb_neq _ _) Hne). apply Hget. }
  split; [exact Hst |].
  rewrite !authenticate_login by assumption. rewrite Hst.
  destruct (match stored_password fs u' with
            | Some v => eq_answer v p'
            | None => false
            end); reflexivity.
Qed.

(** X21. A cancelled name dialog does not stop a registration: the
    password is written under the name "null", replacing the password of a
    user of that name if there is one, and the pair (None, password) is
    returned; a login as "null" with that password then succeeds. *)
Theorem register_cancelled_name (fs : gmap string content) (p : string) :
  users_ok fs ->
  exists fs',
    authenticate (Some "register") None (Some p) fs =
      (Ok (None, Some p), fs', [showinfo "Success" "User registered successfully!"]) /\
    stored_password fs' "null" = Some (JStr p) /\
    authenticate (Some "login") (Some "null") (Some p) fs' =
      (Ok (Some "null", Some p), fs', [showinfo "Success" "Login successful!"]).
Proof.
  intros Hok.
  destruct (authenticate_register fs None (Some p) Hok I) as (users & Hget & Hreg).
  eexists. split; [exact Hreg |]. cbn [dumped_key dumped_value].
  split.
  - now rewrite stored_password_after.
  - rewrite authenticate_login by apply users_ok_after.
    rewrite stored_password_after. cbn [String.eqb Ascii.eqb Bool.eqb eq_answer].
    now rewrite String.eqb_refl.
Qed.

(** X22. [authenticate] writes no file but the users file, and writes
    that one only when the action is "register": for every other action the
    files are as before. *)
Theorem authenticate_writes (fs : gmap string content) (action u p : option string) :
  let fs' := snd (fst (authenticate action u p fs)) in
  (forall name, name <> users_file -> fs' !! name = fs !! name) /\
  (action <> Some "register" -> fs' = fs).
Proof.
  intros fs'. subst fs'. unfold authenticate.
  destruct (fs !! users_file) as [[text|v]|]; [now split | |].
  - destruct (bool_decide_reflect (action = Some "register")) as [->|Ha].
    + destruct v as [| | | | |kv]; try now split.
      destruct (key_in u (dict_of kv)); cbn [fst snd]; [now split |].
      split; [intros name Hn; now apply lookup_insert_ne | congruence].
    + destruct (bool_decide (action = Some "login")); [| now split].
      destruct v as [| | | | |kv]; try now split.
      destruct (_ && _); now split.
  - destruct (bool_decide_reflect (action = Some "register")) as [->|Ha].
    + destruct (key_in u []); cbn [fst snd]; [now split |].
      split; [intros name Hn; now apply lookup_insert_ne | congruence].
    + destruct (bool_decide (action = Some "login")); [| now split].
      destruct (_ && _); now split.
Qed.

End Logins.

Lemma register_then_login_witness :
  exists fs',
    authenticate (Some "register") (Some "ann") (Some "secret") ∅ =
      (Ok (Some "ann", Some "secret"), fs',
       [showinfo "Success" "User registered successfully!"]) /\
    authenticate (Some "login") (Some "ann") (Some "secret") fs' =
      (Ok (Some "ann", Some "secret"), fs', [showinfo "Success" "Login successful!"]) /\
    (forall q, q <> Some "secret" ->
       authenticate (Some "login") (Some "ann") q fs' =
         (Ok (None, None), fs', [showerror_text "Error" "Invalid credentials!"])).
Proof.
  apply (register_then_login (N := exact_numbers) ∅ "ann" "secret"); [exact I | reflexivity].
Defined.

Lemma register_existing_refused_witness :
  authenticate (Some "register") (Some "ann") (Some "other")
    (<[users_file := JsonDoc (JObj [("ann", JStr "secret")])]> ∅) =
  (Ok (None, None), <[users_file := JsonDoc (JObj [("ann", JStr "secret")])]> ∅,
   [showerror_text "Error" "User already exists!"]).
Proof.
  apply (register_existing_refused (N := exact_numbers)
           (<[users_file := JsonDoc (JObj [("ann", JStr "secret")])]> ∅)
           "ann" (Some "other") "secret").
  reflexivity.
Defined.

Lemma register_keeps_other_users_witness :
  stored_password
    (snd (fst (authenticate (Some "register") (Some "bob") (Some "pw")
                 (<[users_file := JsonDoc (JObj [("ann", JStr "secret")])]> ∅)))) "ann" =
  stored_password (<[users_file := JsonDoc (JObj [("ann", JStr "secret")])]> ∅) "ann".
Proof.
  apply (register_keeps_other_users (N := exact_numbers)
           (<[users_file := JsonDoc (JObj [("ann", JStr "secret")])]> ∅)
           (Some "bob") (Some "pw") "ann" (Some "secret")).
  - exact I.
  - discriminate.
Defined.

Lemma register_cancelled_name_witness :
  exists fs',
    authenticate (Some "register") None (Some "pw")
      (<[users_file := JsonDoc (JObj [("null", JStr "secret")])]> ∅) =
      (Ok (None, Some "pw"), fs', [showinfo "Success" "User registered successfully!"]) /\
    stored_password fs' "null" = Some (JStr "pw") /\
    authenticate (Some "login") (Some "null") (Some "pw") fs' =
      (Ok (Some "null", Some "pw"), fs', [showinfo "Success" "Login successful!"]).
Proof.
  apply (register_cancelled_name (N := exact_numbers)
           (<[users_file := JsonDoc (JObj [("null", JStr "secret")])]> ∅) "pw").
  exact I.
Defined.

(** ** The data behind the charts *)

Section Charts.
Context {N : Number}.




End Charts.

Example expenses_over_time_example :
  expenses_over_time
    [mkExpense 12 "Food" "lunch" "2024-05-02" "Cash" "INR";
     mkExpense 80 "Rent" "may" "2024-05-01" "Bank" "INR";
     mkExpense 30 "Food" "dinner" "2024-05-02" "UPI" "INR"] =
  Some (["2024-05-01"; "2024-05-02"], [(0 + 80)%Q; (0 + 12 + 30)%Q]).
Proof. vm_compute. reflexivity. Qed.

(** ** Records and their dictionaries *)

Section RoundTrip.
Context {N : Number}.

(** X24. Building a record from its own dictionary ([to_dict], then the
    constructor with the members as keyword arguments) gives the record
    back when its date is not empty; a record with an empty date comes back
    dated today.  An object with only the three required members is built
    as the constructor builds it without the optional arguments. *)
Theorem Expense_to_dict_round_trip (now : Datetime.t) (e : Expense)
    (a : num) (c d : string) :
  (date e <> "" -> Expense_of_kwargs now (to_dict e) = Ok e) /\
  (date e = "" ->
     Expense_of_kwargs now (to_dict e) =
       Ok (mkExpense (amount e) (category e) (description e)
             (Datetime.strftime now) (payment_method e) (currency e))) /\
  Expense_of_kwargs now
    (JObj [("amount", JNum a); ("category", JStr c); ("description", JStr d)]) =
    Ok (Expense_init now a c d None "Cash" "INR").
Proof.
  split; [apply Expense_of_kwargs_to_dict |]. split; [| reflexivity].
  destruct e as [a' c' d' dt pm cu]. cbn [date]. intros ->. reflexivity.
Qed.

End RoundTrip.
